(** * opennsfw2: the Open-NSFW residual network builder (src/opennsfw2/model.py)

    The Python module builds a Keras functional graph: every convolution,
    dense and normalization layer is created with constant initializers read
    from the module-level dictionary [WEIGHTS], and the layers are wired into
    a fixed residual topology.

    The embedding below follows the source function by function:
    - [WEIGHTS] is a two-level dictionary, here a [gmap string (gmap string
      ndarray)]; the arrays themselves are opaque to the module, so [ndarray]
      and the cast [astype_float32] are section variables;
    - [raise ValueError(...)] is the [Raise] branch of the [result] monad;
    - a Keras symbolic tensor is a [Tensor]: its static shape together with
      the expression ([Node]) that produced it;
    - applying a layer to a symbolic tensor runs the framework's shape
      inference, which raises when the shapes do not fit;
    - Python [int]s are [Z]; optional arguments are [option]s filled in with
      the default of the source. *)

From Stdlib Require Import ZArith QArith Reals Lia DecimalString.
From Stdlib Require DecimalPos DecimalZ.
From stdpp Require Import base option list strings gmap.

Local Open Scope string_scope.
Local Open Scope Z_scope.

(** ** Exceptions and the error monad *)

(** The module itself raises [ValueError] only, and so do the framework's
    shape checks that are modelled below.  Errors of other classes that the
    framework can raise while a layer is built (a [TypeError] when a stored
    array does not fit the variable it initializes) are not modelled: the
    arrays are opaque here.  The model therefore builds whenever the code
    does, and the statements below about a built layer, block or model are
    conditional on the build. *)
Inductive exn : Type :=
| ValueError (msg : string).

Definition message (e : exn) : string :=
  match e with ValueError m => m end.

Inductive result (A : Type) : Type :=
| Ok (a : A)
| Raise (e : exn).
Arguments Ok {A} a.
Arguments Raise {A} e.

Definition rbind {A B : Type} (m : result A) (k : A -> result B) : result B :=
  match m with
  | Ok a => k a
  | Raise e => Raise e
  end.

Notation "'let*' x ':=' m 'in' k" := (rbind m (fun x => k))
  (at level 10, x name, m at level 100, k at level 200).

(** ** Strings *)

(** [str(n)] for a Python int, as used by the f-strings of the block
    builders. *)
Definition str (n : Z) : string := NilZero.string_of_int (Z.to_int n).

Fixpoint is_prefix (p s : string) : bool :=
  match p, s with
  | EmptyString, _ => true
  | String a p', String b s' => if Ascii.eqb a b then is_prefix p' s' else false
  | String _ _, EmptyString => false
  end.

(** [mentions msg s]: the text [s] occurs in [msg]. *)
Fixpoint mentions (msg s : string) : bool :=
  is_prefix s msg ||
  match msg with
  | EmptyString => false
  | String _ msg' => mentions msg' s
  end.

(** ** Layers (keras.layers) *)

Inductive Padding : Type := same | valid.

Section Model.

(** [np.ndarray] and [ndarray.astype(np.float32)]. *)
Context {ndarray : Type} (astype_float32 : ndarray -> ndarray).

(** The layer objects the module creates, with the constructor arguments the
    source passes (arguments left at the framework's default are not
    recorded).  What the framework checks about these arguments is modelled
    where the layer is applied, see [compute_output_shape]. *)
Inductive Layer : Type :=
| Conv2D (name : string) (filters kernel_size strides : Z) (padding : Padding)
         (kernel_initializer bias_initializer : ndarray)
| Dense (name : string) (units : Z)
        (kernel_initializer bias_initializer : ndarray)
| BatchNormalization (name : string) (epsilon : Q)
        (gamma_initializer beta_initializer
         moving_mean_initializer moving_variance_initializer : ndarray)
| MaxPooling2D (pool_size strides : Z) (padding : Padding)
| AveragePooling2D (pool_size strides : Z) (padding : Padding) (name : string)
| Reshape (target_shape : list Z).

(** ** Weight store *)

(** [WEIGHTS: Dict[str, Dict[str, np.ndarray]]], loaded once at import. *)
Variable WEIGHTS : gmap string (gmap string ndarray).

Definition _get_weights (layer_name field_name : string) : result ndarray :=
  match WEIGHTS !! layer_name with
  | None =>
      Raise (ValueError ("No weights found for layer " +:+ layer_name +:+ "."))
  | Some w =>
      match w !! field_name with
      | None =>
          Raise (ValueError
                   ("No field " +:+ field_name +:+ " in layer " +:+ layer_name +:+ "."))
      | Some a => Ok (astype_float32 a)
      end
  end.

(** ** Parameterized layer factory *)

(** Python evaluates keyword arguments left to right, so the kernel lookup
    comes before the bias lookup, and both come before the constructor of the
    layer runs.  What the constructors themselves reject (a filter count,
    kernel size, stride or unit count out of range) is not modelled here;
    [compute_output_shape] below refuses a convolution with a filter count,
    kernel size or stride that is not positive when the layer is applied. *)
Definition _fully_connected (name : string) (units : Z) : result Layer :=
  let* kernel := _get_weights name "weights" in
  let* bias := _get_weights name "biases" in
  Ok (Dense name units kernel bias).

(** [padding] defaults to ["same"]. *)
Definition _conv2d (name : string) (num_filters kernel_size stride : Z)
    (padding : option Padding) : result Layer :=
  let* kernel := _get_weights name "weights" in
  let* bias := _get_weights name "biases" in
  Ok (Conv2D name num_filters kernel_size stride (default same padding)
             kernel bias).

(** [epsilon=1e-05], "Default used in Caffe". *)
Definition _batch_norm (name : string) : result Layer :=
  let* gamma := _get_weights name "scale" in
  let* beta := _get_weights name "offset" in
  let* moving_mean := _get_weights name "mean" in
  let* moving_variance := _get_weights name "variance" in
  Ok (BatchNormalization name (1 # 100000) gamma beta moving_mean moving_variance).

(** ** Symbolic tensors *)

(** The expression behind a symbolic tensor: which layer or operation was
    applied to which tensors. *)
Inductive Node : Type :=
| Input (shape : Z * Z * Z) (name : string)
| Pad (x : Node) (paddings : list (Z * Z)) (mode : string)
| Call (layer : Layer) (x : Node)
| Add (x y : Node)
| Relu (x : Node)
| Softmax (x : Node) (name : string).

(** A symbolic tensor: static shape (the batch dimension is [None]) and
    history. *)
Record Tensor : Type := { shape : list (option Z); node : Node }.

(** [tf.keras.Model(inputs, outputs)]. *)
Record KerasModel : Type := { inputs : Tensor; outputs : Tensor }.

(** ** Framework behaviour at graph-construction time

    The module never computes shapes itself; the framework does when a layer
    is applied to a symbolic tensor, and raises [ValueError] when the shapes
    do not fit.  The rules below are those of Keras' [compute_output_shape]
    methods; the texts of the framework's messages are abbreviated. *)

(** [conv_utils.conv_output_length] for dilation 1. *)
Definition conv_output_length (input_length filter_size : Z) (padding : Padding)
    (stride : Z) : Z :=
  let output_length :=
    match padding with
    | same => input_length
    | valid => input_length - filter_size + 1
    end in
  (output_length + stride - 1) / stride.

Definition window_dim (d : option Z) (size : Z) (padding : Padding) (stride : Z)
  : result (option Z) :=
  match d with
  | None => Ok None
  | Some n =>
      let o := conv_output_length n size padding stride in
      if 0 <? o then Ok (Some o)
      else Raise (ValueError "One of the dimensions in the output is <= 0.")
  end.

Definition window_shape (s : list (option Z)) (size stride : Z) (padding : Padding)
    (channels : option Z) : result (list (option Z)) :=
  match s with
  | [b; h; w; _] =>
      if (0 <? size) && (0 <? stride) then
        let* h' := window_dim h size padding stride in
        let* w' := window_dim w size padding stride in
        Ok [b; h'; w'; channels]
      else Raise (ValueError "Window size and strides must be positive.")
  | _ => Raise (ValueError "Input is incompatible with the layer: expected ndim=4.")
  end.

(** [Reshape._fix_unknown_dimension]: at most one negative entry in the
    target, which is inferred from the number of elements. *)
Definition fix_unknown_dimension (input_shape output_shape : list Z)
  : result (list Z) :=
  let unknown := filter (fun d => d <? 0) output_shape in
  let known := fold_right Z.mul 1 (filter (fun d => 0 <=? d) output_shape) in
  let original := fold_right Z.mul 1 input_shape in
  match unknown with
  | _ :: _ :: _ =>
      Raise (ValueError "There must be at most one unknown dimension in output_shape.")
  | [_] =>
      if (known =? 0) || negb (original mod known =? 0)
      then Raise (ValueError "total size of new array must be unchanged")
      else Ok (map (fun d => if d <? 0 then original / known else d) output_shape)
  | [] =>
      if original =? known then Ok output_shape
      else Raise (ValueError "total size of new array must be unchanged")
  end.

Fixpoint all_known (s : list (option Z)) : option (list Z) :=
  match s with
  | [] => Some []
  | None :: _ => None
  | Some d :: s' => option_map (cons d) (all_known s')
  end.

Definition reshape_shape (s : list (option Z)) (target : list Z)
  : result (list (option Z)) :=
  match s with
  | [] => Raise (ValueError "Input has no batch dimension.")
  | b :: dims =>
      match all_known dims with
      | None => Ok (b :: map (fun d => if d =? -1 then None else Some d) target)
      | Some ds =>
          let* out := fix_unknown_dimension ds target in
          Ok (b :: map Some out)
      end
  end.

Definition dense_shape (s : list (option Z)) (units : Z) : result (list (option Z)) :=
  match rev s with
  | Some _ :: (_ :: _) as front => Ok (rev (Some units :: front))
  | _ => Raise (ValueError "The last dimension of the inputs to a Dense layer should be defined.")
  end.

Definition compute_output_shape (l : Layer) (s : list (option Z))
  : result (list (option Z)) :=
  match l with
  | Conv2D _ filters kernel_size strides padding _ _ =>
      if 0 <? filters then
        match s with
        | [_; _; _; Some _] => window_shape s kernel_size strides padding (Some filters)
        | _ => Raise (ValueError "The channel dimension of the inputs should be defined.")
        end
      else Raise (ValueError "Invalid value for argument filters.")
  | Dense _ units _ _ => dense_shape s units
  | BatchNormalization _ _ _ _ _ _ =>
      match last s with
      | Some (Some _) => Ok s
      | _ => Raise (ValueError "Input has undefined axis dimension.")
      end
  | MaxPooling2D pool_size strides padding =>
      window_shape s pool_size strides padding (default None (s !! 3%nat))
  | AveragePooling2D pool_size strides padding _ =>
      window_shape s pool_size strides padding (default None (s !! 3%nat))
  | Reshape target => reshape_shape s target
  end.

(** [layer(x)]: applying a layer to a symbolic tensor.  Only the shape rule
    is modelled; that the stored arrays fit the variables of the layer is
    not checked. *)
Definition call (l : Layer) (x : Tensor) : result Tensor :=
  let* s := compute_output_shape l (shape x) in
  Ok {| shape := s; node := Call l (node x) |}.

(** [layers.Input(shape=..., name=...)]. *)
Definition layers_Input (input_shape : Z * Z * Z) (name : string) : Tensor :=
  let '(h, w, c) := input_shape in
  {| shape := [None; Some h; Some w; Some c]; node := Input input_shape name |}.

(** [tf.pad(x, paddings, mode)]. *)
Fixpoint pad_shape (s : list (option Z)) (paddings : list (Z * Z))
  : result (list (option Z)) :=
  match s, paddings with
  | [], [] => Ok []
  | d :: s', (before, after) :: paddings' =>
      let* rest := pad_shape s' paddings' in
      Ok (option_map (fun n => n + before + after) d :: rest)
  | _, _ => Raise (ValueError "The rank of paddings must match the rank of the tensor.")
  end.

Definition tf_pad (x : Tensor) (paddings : list (Z * Z)) (mode : string)
  : result Tensor :=
  let* s := pad_shape (shape x) paddings in
  Ok {| shape := s; node := Pad (node x) paddings mode |}.

(** [tf.nn.relu] and [tf.nn.softmax] keep the shape. *)
Definition tf_nn_relu (x : Tensor) : Tensor :=
  {| shape := shape x; node := Relu (node x) |}.

Definition tf_nn_softmax (x : Tensor) (name : string) : Tensor :=
  {| shape := shape x; node := Softmax (node x) name |}.

(** [layers.Add()([x, y])].  The merge layers broadcast: two dimensions fit
    when they are equal, when one of them is 1, or when one is unknown
    ([_Merge._compute_elemwise_op_output_shape]); both operands here have
    the same rank. *)
Definition merge_dim (i j : option Z) : result (option Z) :=
  match i, j with
  | None, _ | _, None => Ok None
  | Some a, Some b =>
      if a =? 1 then Ok (Some b)
      else if b =? 1 then Ok (Some a)
      else if a =? b then Ok (Some a)
      else Raise (ValueError "Inputs have incompatible shapes.")
  end.

Fixpoint merge_shape (s1 s2 : list (option Z)) : result (list (option Z)) :=
  match s1, s2 with
  | [], [] => Ok []
  | i :: s1', j :: s2' =>
      let* d := merge_dim i j in
      let* rest := merge_shape s1' s2' in
      Ok (d :: rest)
  | _, _ => Raise (ValueError "Inputs have different ranks.")
  end.

Definition layers_Add (x y : Tensor) : result Tensor :=
  let* s := merge_shape (shape x) (shape y) in
  Ok {| shape := s; node := Add (node x) (node y) |}.

(** ** Residual block builder *)

(** [kernel_size] defaults to 3 and [stride] to 2. *)
Definition _conv_block (stage block : Z) (inputs : Tensor)
    (nums_filters : Z * Z * Z) (kernel_size stride : option Z) : result Tensor :=
  let '(num_filters_1, num_filters_2, num_filters_3) := nums_filters in
  let kernel_size := default 3 kernel_size in
  let stride := default 2 stride in
  let conv_name_base := "conv_stage" +:+ str stage +:+ "_block" +:+ str block +:+ "_branch" in
  let bn_name_base := "bn_stage" +:+ str stage +:+ "_block" +:+ str block +:+ "_branch" in
  let shortcut_name_post :=
    "_stage" +:+ str stage +:+ "_block" +:+ str block +:+ "_proj_shortcut" in

  let* l := _conv2d ("conv" +:+ shortcut_name_post) num_filters_3 1 stride (Some same) in
  let* shortcut := call l inputs in

  let* l := _batch_norm ("bn" +:+ shortcut_name_post) in
  let* shortcut := call l shortcut in

  let* l := _conv2d (conv_name_base +:+ "2a") num_filters_1 1 stride (Some same) in
  let* x := call l inputs in
  let* l := _batch_norm (bn_name_base +:+ "2a") in
  let* x := call l x in
  let x := tf_nn_relu x in

  let* l := _conv2d (conv_name_base +:+ "2b") num_filters_2 kernel_size 1 (Some same) in
  let* x := call l x in
  let* l := _batch_norm (bn_name_base +:+ "2b") in
  let* x := call l x in
  let x := tf_nn_relu x in

  let* l := _conv2d (conv_name_base +:+ "2c") num_filters_3 1 1 (Some same) in
  let* x := call l x in
  let* l := _batch_norm (bn_name_base +:+ "2c") in
  let* x := call l x in

  let* x := layers_Add x shortcut in

  Ok (tf_nn_relu x).

Definition _identity_block (stage block : Z) (inputs : Tensor)
    (nums_filters : Z * Z * Z) (kernel_size : Z) : result Tensor :=
  let '(num_filters_1, num_filters_2, num_filters_3) := nums_filters in
  let conv_name_base := "conv_stage" +:+ str stage +:+ "_block" +:+ str block +:+ "_branch" in
  let bn_name_base := "bn_stage" +:+ str stage +:+ "_block" +:+ str block +:+ "_branch" in

  let* l := _conv2d (conv_name_base +:+ "2a") num_filters_1 1 1 (Some same) in
  let* x := call l inputs in
  let* l := _batch_norm (bn_name_base +:+ "2a") in
  let* x := call l x in
  let x := tf_nn_relu x in

  let* l := _conv2d (conv_name_base +:+ "2b") num_filters_2 kernel_size 1 (Some same) in
  let* x := call l x in
  let* l := _batch_norm (bn_name_base +:+ "2b") in
  let* x := call l x in
  let x := tf_nn_relu x in

  let* l := _conv2d (conv_name_base +:+ "2c") num_filters_3 1 1 (Some same) in
  let* x := call l x in
  let* l := _batch_norm (bn_name_base +:+ "2c") in
  let* x := call l x in

  let* x := layers_Add x inputs in

  Ok (tf_nn_relu x).

(** ** Network assembler *)

(** [input_shape] defaults to [(224, 224, 3)]. *)
Definition make_open_nsfw_model_and_load_weights (input_shape : option (Z * Z * Z))
  : result KerasModel :=
  let input_shape := default (224, 224, 3) input_shape in
  let image_input := layers_Input input_shape "input" in
  let x := image_input in

  let* x := tf_pad x [(0, 0); (3, 3); (3, 3); (0, 0)] "CONSTANT" in
  let* l := _conv2d "conv_1" 64 7 2 (Some valid) in
  let* x := call l x in

  let* l := _batch_norm "bn_1" in
  let* x := call l x in
  let x := tf_nn_relu x in

  let* x := call (MaxPooling2D 3 2 same) x in

  let* x := _conv_block 0 0 x (32, 32, 128) (Some 3) (Some 1) in

  let* x := _identity_block 0 1 x (32, 32, 128) 3 in
  let* x := _identity_block 0 2 x (32, 32, 128) 3 in

  let* x := _conv_block 1 0 x (64, 64, 256) (Some 3) (Some 2) in
  let* x := _identity_block 1 1 x (64, 64, 256) 3 in
  let* x := _identity_block 1 2 x (64, 64, 256) 3 in
  let* x := _identity_block 1 3 x (64, 64, 256) 3 in

  let* x := _conv_block 2 0 x (128, 128, 512) (Some 3) (Some 2) in
  let* x := _identity_block 2 1 x (128, 128, 512) 3 in
  let* x := _identity_block 2 2 x (128, 128, 512) 3 in
  let* x := _identity_block 2 3 x (128, 128, 512) 3 in
  let* x := _identity_block 2 4 x (128, 128, 512) 3 in
  let* x := _identity_block 2 5 x (128, 128, 512) 3 in

  let* x := _conv_block 3 0 x (256, 256, 1024) (Some 3) (Some 2) in
  let* x := _identity_block 3 1 x (256, 256, 1024) 3 in
  let* x := _identity_block 3 2 x (256, 256, 1024) 3 in

  let* x := call (AveragePooling2D 7 1 valid "pool") x in

  let* x := call (Reshape [-1; 1024]) x in

  let* l := _fully_connected "fc_nsfw" 2 in
  let* logits := call l x in
  let output := tf_nn_softmax logits "predictions" in

  Ok {| inputs := image_input; outputs := output |}.

(** [main()] builds the model with the default input shape, binds it to a
    local variable and returns [None]. *)
Definition main : result unit :=
  let* model := make_open_nsfw_model_and_load_weights None in
  Ok tt.

End Model.

Arguments Layer : clear implicits.
Arguments Node : clear implicits.
Arguments Tensor : clear implicits.
Arguments KerasModel : clear implicits.

(** ** A test archive

    An archive that holds, for every layer the assembler creates, the fields
    that layer reads; every array is the same value [a]. *)
Section Archive.

Context {ndarray : Type} (a : ndarray).

Definition conv_fields : gmap string ndarray :=
  list_to_map [("weights", a); ("biases", a)].

Definition bn_fields : gmap string ndarray :=
  list_to_map [("scale", a); ("offset", a); ("mean", a); ("variance", a)].

Definition branch_entries (stage block : Z) (branch : string)
  : list (string * gmap string ndarray) :=
  [("conv_stage" +:+ str stage +:+ "_block" +:+ str block +:+ branch, conv_fields);
   ("bn_stage" +:+ str stage +:+ "_block" +:+ str block +:+ branch, bn_fields)].

Definition block_entries (stage block : Z) (projection : bool)
  : list (string * gmap string ndarray) :=
  (if projection then branch_entries stage block "_proj_shortcut" else [])
  ++ branch_entries stage block "_branch2a"
  ++ branch_entries stage block "_branch2b"
  ++ branch_entries stage block "_branch2c".

Definition stage_entries (stage : Z) (identity_blocks : list Z)
  : list (string * gmap string ndarray) :=
  block_entries stage 0 true
  ++ concat (map (fun b => block_entries stage b false) identity_blocks).

Definition archive_entries : list (string * gmap string ndarray) :=
  [("conv_1", conv_fields); ("bn_1", bn_fields)]
  ++ stage_entries 0 [1; 2]
  ++ stage_entries 1 [1; 2; 3]
  ++ stage_entries 2 [1; 2; 3; 4; 5]
  ++ stage_entries 3 [1; 2]
  ++ [("fc_nsfw", conv_fields)].

Definition test_archive : gmap string (gmap string ndarray) :=
  list_to_map archive_entries.

End Archive.

(** ** The topology the specification describes

    A [Graph] is a [Node] with the parameter arrays erased: layer kinds,
    names and shape parameters only.  The definitions of this section follow
    the wording of the specification (sections 4.3 and 4.4), not the
    source. *)

Inductive LayerSpec : Type :=
| convolution (name : string) (filters kernel_size stride : Z) (padding : Padding)
| dense_layer (name : string) (units : Z)
| normalization (name : string) (epsilon : Q)
| max_pool (pool_size stride : Z) (padding : Padding)
| average_pool (pool_size stride : Z) (padding : Padding) (name : string)
| reshape (target_shape : list Z).

Inductive Graph : Type :=
| g_input (shape : Z * Z * Z) (name : string)
| g_pad (x : Graph) (paddings : list (Z * Z)) (mode : string)
| g_apply (l : LayerSpec) (x : Graph)
| g_sum (x y : Graph)
| g_activation (x : Graph)
| g_softmax (x : Graph) (name : string).

Definition describe {ndarray : Type} (l : Layer ndarray) : LayerSpec :=
  match l with
  | Conv2D name filters kernel_size strides padding _ _ =>
      convolution name filters kernel_size strides padding
  | Dense name units _ _ => dense_layer name units
  | BatchNormalization name epsilon _ _ _ _ => normalization name epsilon
  | MaxPooling2D pool_size strides padding => max_pool pool_size strides padding
  | AveragePooling2D pool_size strides padding name =>
      average_pool pool_size strides padding name
  | Reshape target_shape => reshape target_shape
  end.

Fixpoint topology {ndarray : Type} (n : Node ndarray) : Graph :=
  match n with
  | Input shape name => g_input shape name
  | Pad x paddings mode => g_pad (topology x) paddings mode
  | Call l x => g_apply (describe l) (topology x)
  | Add x y => g_sum (topology x) (topology y)
  | Relu x => g_activation (topology x)
  | Softmax x name => g_softmax (topology x) name
  end.

(** Layer names are a function of kind, stage, block and branch label. *)
Definition block_layer_name (kind : string) (stage block : Z) (branch : string)
  : string :=
  kind +:+ "_stage" +:+ str stage +:+ "_block" +:+ str block +:+ branch.

Definition conv_norm (stage block : Z) (branch : string)
    (filters kernel_size stride : Z) (x : Graph) : Graph :=
  g_apply (normalization (block_layer_name "bn" stage block branch) (1 # 100000))
    (g_apply (convolution (block_layer_name "conv" stage block branch)
                          filters kernel_size stride same) x).

(** Main path: 1x1 conv (c1, stride) -> norm -> activation -> kxk conv
    (c2, stride 1) -> norm -> activation -> 1x1 conv (c3, stride 1) -> norm. *)
Definition spec_main_path (stage block : Z) (c : Z * Z * Z) (k stride : Z)
    (x : Graph) : Graph :=
  let '(c1, c2, c3) := c in
  conv_norm stage block "_branch2c" c3 1 1
    (g_activation
       (conv_norm stage block "_branch2b" c2 k 1
          (g_activation
             (conv_norm stage block "_branch2a" c1 1 stride x)))).

(** Projection shortcut: 1x1 conv (c3, stride) -> norm. *)
Definition spec_projection_shortcut (stage block : Z) (c : Z * Z * Z) (stride : Z)
    (x : Graph) : Graph :=
  conv_norm stage block "_proj_shortcut" (snd c) 1 stride x.

(** Projection block: activation(main + shortcut). *)
Definition spec_projection_block (stage block : Z) (c : Z * Z * Z) (k stride : Z)
    (x : Graph) : Graph :=
  g_activation
    (g_sum (spec_main_path stage block c k stride x)
           (spec_projection_shortcut stage block c stride x)).

(** Identity block: activation(main + input), all strides 1. *)
Definition spec_identity_block (stage block : Z) (c : Z * Z * Z) (k : Z)
    (x : Graph) : Graph :=
  g_activation (g_sum (spec_main_path stage block c k 1 x) x).

(** Stem: zero-pad by 3 on each spatial edge (mode ["CONSTANT"] pads with
    the constant 0) -> 7x7 conv (64 filters, stride 2, no padding) -> norm ->
    activation -> 3x3 max-pool (stride 2, same padding). *)
Definition spec_stem (x : Graph) : Graph :=
  g_apply (max_pool 3 2 same)
    (g_activation
       (g_apply (normalization "bn_1" (1 # 100000))
          (g_apply (convolution "conv_1" 64 7 2 valid)
             (g_pad x [(0, 0); (3, 3); (3, 3); (0, 0)] "CONSTANT")))).

(** A stage: one projection block (block 0) followed by [n] identity blocks
    (blocks 1..n) of the same filter widths and kernel size 3. *)
Fixpoint spec_identity_blocks (stage : Z) (c : Z * Z * Z) (first : Z) (n : nat)
    (x : Graph) : Graph :=
  match n with
  | O => x
  | S n' =>
      spec_identity_blocks stage c (first + 1) n'
        (spec_identity_block stage first c 3 x)
  end.

Record StageSpec : Type :=
  { stage_index : Z; widths : Z * Z * Z; projection_stride : Z;
    identity_blocks : nat }.

Definition spec_stage (st : StageSpec) (x : Graph) : Graph :=
  spec_identity_blocks (stage_index st) (widths st) 1 (identity_blocks st)
    (spec_projection_block (stage_index st) 0 (widths st) 3
       (projection_stride st) x).

(** The stage schedule of section 4.4. *)
Definition spec_stages : list StageSpec :=
  [ {| stage_index := 0; widths := (32, 32, 128); projection_stride := 1;
       identity_blocks := 2 |};
    {| stage_index := 1; widths := (64, 64, 256); projection_stride := 2;
       identity_blocks := 3 |};
    {| stage_index := 2; widths := (128, 128, 512); projection_stride := 2;
       identity_blocks := 5 |};
    {| stage_index := 3; widths := (256, 256, 1024); projection_stride := 2;
       identity_blocks := 2 |} ].

(** Blocks per stage: the projection block and the identity blocks. *)
Definition block_count (st : StageSpec) : nat := S (identity_blocks st).

(** Head: 7x7 average pool (stride 1, no padding) -> reshape to rows of 1024
    features -> dense layer to 2 units -> softmax. *)
Definition spec_head (x : Graph) : Graph :=
  g_softmax
    (g_apply (dense_layer "fc_nsfw" 2)
       (g_apply (reshape [-1; 1024])
          (g_apply (average_pool 7 1 valid "pool") x)))
    "predictions".

Definition spec_network (input_shape : Z * Z * Z) : Graph :=
  spec_head
    (fold_left (fun x st => spec_stage st x) spec_stages
       (spec_stem (g_input input_shape "input"))).

(** ** The main path shared by the two block kinds

    The specification describes the identity block's main path as the
    projection block's main path with every stride 1.  [bottleneck_main_path]
    is that common part, written once with the stride as a parameter; the
    two block builders of the source are compared with it below. *)
Section MainPath.

Context {ndarray : Type} (astype_float32 : ndarray -> ndarray).
Variable WEIGHTS : gmap string (gmap string ndarray).

Definition conv_then_norm (stage block : Z) (branch : string)
    (filters kernel_size stride : Z) (x : Tensor ndarray)
  : result (Tensor ndarray) :=
  let* l := _conv2d astype_float32 WEIGHTS
              (block_layer_name "conv" stage block branch)
              filters kernel_size stride (Some same) in
  let* x := call l x in
  let* l := _batch_norm astype_float32 WEIGHTS
              (block_layer_name "bn" stage block branch) in
  call l x.

Definition bottleneck_main_path (stage block : Z) (inputs : Tensor ndarray)
    (c : Z * Z * Z) (kernel_size stride : Z) : result (Tensor ndarray) :=
  let '(c1, c2, c3) := c in
  let* x := conv_then_norm stage block "_branch2a" c1 1 stride inputs in
  let* x := conv_then_norm stage block "_branch2b" c2 kernel_size 1 (tf_nn_relu x) in
  conv_then_norm stage block "_branch2c" c3 1 1 (tf_nn_relu x).

Definition projection_shortcut (stage block : Z) (inputs : Tensor ndarray)
    (c : Z * Z * Z) (stride : Z) : result (Tensor ndarray) :=
  conv_then_norm stage block "_proj_shortcut" (snd c) 1 stride inputs.

End MainPath.

(** ** Normalization at inference time

    Keras documents the inference-mode output of [BatchNormalization] as
    [gamma * (batch - moving_mean) / sqrt(moving_var + epsilon) + beta],
    channel by channel.  [entry a c] reads the value of the one-dimensional
    array [a] at channel [c]; the arithmetic is that of the real numbers
    (rounding is not modelled). *)
Definition batch_norm_inference {ndarray : Type} (entry : ndarray -> nat -> R)
    (l : Layer ndarray) (c : nat) (x : R) : option R :=
  match l with
  | BatchNormalization _ epsilon gamma beta moving_mean moving_variance =>
      Some (entry gamma c * (x - entry moving_mean c)
              / sqrt (entry moving_variance c + Q2R epsilon)
            + entry beta c)%R
  | _ => None
  end.

(** The fields a normalization layer reads from the store. *)
Definition batch_norm_fields : list string :=
  ["scale"; "offset"; "mean"; "variance"].

(** ** Small archives used in examples *)

Definition conv_1_only : gmap string (gmap string Z) :=
  {[ "conv_1" := list_to_map [("weights", 1); ("biases", 2)] ]}.

Definition bn_1_only : gmap string (gmap string Z) :=
  {[ "bn_1" := list_to_map [("scale", 1); ("offset", 2); ("mean", 3); ("variance", 4)] ]}.

(** The full test archive over placeholder arrays, and a block input with
    128 channels. *)
Definition example_archive : gmap string (gmap string unit) := test_archive tt.

Definition keep (a : unit) : unit := a.

Definition example_block_input : Tensor unit := layers_Input (56, 56, 128) "input".

(** The static shape of what a builder returned, [None] when it raised. *)
Definition built_shape {ndarray : Type} (r : result (Tensor ndarray))
  : option (list (option Z)) :=
  match r with
  | Ok t => Some (shape t)
  | Raise _ => None
  end.

Definition built_output_shape {ndarray : Type} (r : result (KerasModel ndarray))
  : option (list (option Z)) :=
  match r with
  | Ok m => Some (shape (outputs m))
  | Raise _ => None
  end.

(** ** The store entries a builder reads

    [has_fields W layer fields]: the store holds [layer] and, under it, every
    field of [fields]. *)
Definition has_fields {ndarray : Type} (W : gmap string (gmap string ndarray))
    (layer : string) (fields : list string) : bool :=
  match W !! layer with
  | None => false
  | Some w =>
      forallb (fun f => match w !! f with Some _ => true | None => false end)
              fields
  end.

(** The fields [_conv2d] and [_fully_connected] read, in the order they are
    read; [batch_norm_fields] above is the same for [_batch_norm]. *)
Definition kernel_bias_fields : list string := ["weights"; "biases"].

Definition all_present {ndarray : Type} (W : gmap string (gmap string ndarray))
    (layers : list (string * list string)) : bool :=
  forallb (fun '(layer, fields) => has_fields W layer fields) layers.

(** The layers of one convolution followed by its normalization, then of the
    blocks and of the whole network, in the order the builders create them. *)
Definition branch_layers (stage block : Z) (branch : string)
  : list (string * list string) :=
  [(block_layer_name "conv" stage block branch, kernel_bias_fields);
   (block_layer_name "bn" stage block branch, batch_norm_fields)].

Definition main_path_layers (stage block : Z) : list (string * list string) :=
  branch_layers stage block "_branch2a"
  ++ branch_layers stage block "_branch2b"
  ++ branch_layers stage block "_branch2c".

Definition conv_block_layers (stage block : Z) : list (string * list string) :=
  branch_layers stage block "_proj_shortcut" ++ main_path_layers stage block.

Definition network_layers : list (string * list string) :=
  [("conv_1", kernel_bias_fields); ("bn_1", batch_norm_fields)]
  ++ conv_block_layers 0 0
  ++ main_path_layers 0 1 ++ main_path_layers 0 2
  ++ conv_block_layers 1 0
  ++ main_path_layers 1 1 ++ main_path_layers 1 2 ++ main_path_layers 1 3
  ++ conv_block_layers 2 0
  ++ main_path_layers 2 1 ++ main_path_layers 2 2 ++ main_path_layers 2 3
  ++ main_path_layers 2 4 ++ main_path_layers 2 5
  ++ conv_block_layers 3 0
  ++ main_path_layers 3 1 ++ main_path_layers 3 2
  ++ [("fc_nsfw", kernel_bias_fields)].

(** Two stores agree on a list of layers when every lookup of a listed field
    gives the same result in both. *)
Definition agree_on {ndarray : Type} (astype_float32 : ndarray -> ndarray)
    (W W' : gmap string (gmap string ndarray))
    (layers : list (string * list string)) : Prop :=
  forall layer fields field,
    In (layer, fields) layers -> In field fields ->
    _get_weights astype_float32 W layer field
    = _get_weights astype_float32 W' layer field.

(** ** Spatial sizes

    [ceil_div n s] is the output length of a window operation with ["same"]
    padding and stride [s]; [feature_size n] is the side of the feature map
    that reaches the head when the input side is [n]: the stem convolution,
    the max-pool and the three stride-2 stages. *)
Definition ceil_div (n s : Z) : Z := (n + s - 1) / s.

Definition feature_size (n : Z) : Z :=
  ceil_div (ceil_div (ceil_div (ceil_div ((n + 1) / 2) 2) 2) 2) 2.

(** ** Layers bound to the store

    [layer_bound l]: the arrays a parameterized layer carries are the lookups
    of its fields under its own name.  [graph_bound n]: this holds of every
    layer in the history of [n]. *)
Section Binding.

Context {ndarray : Type} (astype_float32 : ndarray -> ndarray).
Variable WEIGHTS : gmap string (gmap string ndarray).

Definition layer_bound (l : Layer ndarray) : Prop :=
  match l with
  | Conv2D name _ _ _ _ kernel bias
  | Dense name _ kernel bias =>
      _get_weights astype_float32 WEIGHTS name "weights" = Ok kernel
      /\ _get_weights astype_float32 WEIGHTS name "biases" = Ok bias
  | BatchNormalization name _ gamma beta moving_mean moving_variance =>
      _get_weights astype_float32 WEIGHTS name "scale" = Ok gamma
      /\ _get_weights astype_float32 WEIGHTS name "offset" = Ok beta
      /\ _get_weights astype_float32 WEIGHTS name "mean" = Ok moving_mean
      /\ _get_weights astype_float32 WEIGHTS name "variance" = Ok moving_variance
  | MaxPooling2D _ _ _ | AveragePooling2D _ _ _ _ | Reshape _ => True
  end.

Fixpoint graph_bound (n : Node ndarray) : Prop :=
  match n with
  | Input _ _ => True
  | Pad x _ _ => graph_bound x
  | Call l x => layer_bound l /\ graph_bound x
  | Add x y => graph_bound x /\ graph_bound y
  | Relu x => graph_bound x
  | Softmax x _ => graph_bound x
  end.

End Binding.

(** ** Characters of layer names *)

Definition underscore : Ascii.ascii := Ascii.ascii_of_nat 95.

Fixpoint no_underscore (s : string) : bool :=
  match s with
  | EmptyString => true
  | String a s' => negb (Ascii.eqb a underscore) && no_underscore s'
  end.

(** A store whose layer [bn_1] lacks the fields ["mean"] and ["variance"]. *)
Definition bn_1_partial : gmap string (gmap string Z) :=
  {[ "bn_1" := list_to_map [("scale", 1); ("offset", 2)] ]}.

(** The full test archive with one more layer, which the network does not
    name. *)
Definition example_archive_extra : gmap string (gmap string unit) :=
  <[ "conv_stage9_block0_branch2a" := conv_fields tt ]> example_archive.

(** Whether the framework's Add layer accepts a main path with [c3] channels
    beside an input with [c] channels: equal counts, or one of them 1. *)
Definition channels_fit (c3 c : Z) : bool :=
  (c3 =? c) || (c3 =? 1) || (c =? 1).

(** * Verification *)

(** ** The error monad *)

Lemma rbind_Ok {A B : Type} (m : result A) (k : A -> result B) (b : B) :
  rbind m k = Ok b -> exists a, m = Ok a /\ k a = Ok b.
Proof.
  destruct m as [a | e]; simpl; intros H.
  - exists a. split; [reflexivity | exact H].
  - discriminate H.
Qed.

(** Splits a hypothesis [let* x := m in k = Ok b] into its two steps. *)
Ltac bind_inv H :=
  let a := fresh "r" in
  let E := fresh "E" in
  apply rbind_Ok in H; destruct H as (a & E & H).

(** Splits every such hypothesis of the context. *)
Ltac bind_inv_all :=
  repeat match goal with
         | H : rbind _ _ = Ok _ |- _ =>
             apply rbind_Ok in H; destruct H as (? & ? & ?)
         end.

(** ** Strings *)

Lemma is_prefix_app (s t : string) : is_prefix s (s +:+ t) = true.
Proof.
  induction s as [| a s IH]; simpl.
  - reflexivity.
  - rewrite Ascii.eqb_refl. exact IH.
Qed.

Lemma mentions_here (s t : string) : mentions (s +:+ t) s = true.
Proof.
  destruct s as [| a s]; simpl.
  - destruct t; reflexivity.
  - rewrite Ascii.eqb_refl, is_prefix_app. reflexivity.
Qed.

Lemma mentions_later (p msg s : string) :
  mentions msg s = true -> mentions (p +:+ msg) s = true.
Proof.
  intros H. induction p as [| a p IH]; simpl.
  - exact H.
  - rewrite IH. apply orb_true_r.
Qed.

Lemma mentions_infix (p s t : string) : mentions (p +:+ s +:+ t) s = true.
Proof. apply mentions_later, mentions_here. Qed.

Lemma string_app_assoc (s t u : string) : (s +:+ t) +:+ u = s +:+ (t +:+ u).
Proof.
  induction s as [| a s IH].
  - reflexivity.
  - change (String a ((s +:+ t) +:+ u) = String a (s +:+ t +:+ u)).
    f_equal. exact IH.
Qed.

(** ** Weight store *)

Section WeightStore.

Context {ndarray : Type} (astype_float32 : ndarray -> ndarray).
Variable WEIGHTS : gmap string (gmap string ndarray).

Lemma get_weights_present (layer field : string) (w : gmap string ndarray)
    (a : ndarray) :
  WEIGHTS !! layer = Some w -> w !! field = Some a ->
  _get_weights astype_float32 WEIGHTS layer field = Ok (astype_float32 a).
Proof. intros Hl Hf. unfold _get_weights. rewrite Hl, Hf. reflexivity. Qed.

Lemma get_weights_Ok (layer field : string) (v : ndarray) :
  _get_weights astype_float32 WEIGHTS layer field = Ok v ->
  exists w a, WEIGHTS !! layer = Some w /\ w !! field = Some a
              /\ v = astype_float32 a.
Proof.
  unfold _get_weights.
  destruct (WEIGHTS !! layer) as [w |] eqn:Hl; [| discriminate].
  destruct (w !! field) as [a |] eqn:Hf; [| discriminate].
  intros H. injection H as <-. exists w, a. auto.
Qed.

(** C2 (as amended): the lookup returns the stored array, cast to float32,
    when both keys are present; when the layer key is absent it raises a
    [ValueError] whose message names the layer; when the layer is present and
    the field key is absent it raises a [ValueError] whose message names the
    field and the layer.  There is no other outcome, so a missing key never
    yields a default value. *)
Theorem get_weights_outcomes (layer field : string) :
  match WEIGHTS !! layer with
  | None =>
      exists msg,
        _get_weights astype_float32 WEIGHTS layer field = Raise (ValueError msg)
        /\ msg = "No weights found for layer " +:+ layer +:+ "."
        /\ mentions msg layer = true
  | Some w =>
      match w !! field with
      | None =>
          exists msg,
            _get_weights astype_float32 WEIGHTS layer field = Raise (ValueError msg)
            /\ msg = "No field " +:+ field +:+ " in layer " +:+ layer +:+ "."
            /\ mentions msg field = true
            /\ mentions msg layer = true
      | Some a =>
          _get_weights astype_float32 WEIGHTS layer field = Ok (astype_float32 a)
      end
  end.
Proof.
  unfold _get_weights.
  destruct (WEIGHTS !! layer) as [w |].
  - destruct (w !! field) as [a |].
    + reflexivity.
    + eexists. split; [reflexivity |]. split; [reflexivity |]. split.
      * apply mentions_infix.
      * apply (mentions_later ("No field " +:+ field)).
        rewrite <- string_app_assoc.
        apply (mentions_infix " in layer " layer ".").
  - eexists. split; [reflexivity |]. split; [reflexivity |].
    apply mentions_infix.
Qed.

End WeightStore.

(** C2, counterexample to the claim as stated: with the layer key absent the
    lookup of the field ["biases"] raises a message that names the layer but
    not the field. *)
Lemma get_weights_missing_layer_message :
  _get_weights (fun a : Z => a) ∅ "conv_1" "biases"
    = Raise (ValueError "No weights found for layer conv_1.")
  /\ mentions "No weights found for layer conv_1." "conv_1" = true
  /\ mentions "No weights found for layer conv_1." "biases" = false.
Proof. repeat split; reflexivity. Qed.

(** ** Parameterized layer factory *)

Section LayerFactory.

Context {ndarray : Type} (astype_float32 : ndarray -> ndarray).
Variable WEIGHTS : gmap string (gmap string ndarray).

Local Abbreviation get := (_get_weights astype_float32 WEIGHTS).

Lemma conv2d_Ok (name : string) (nf k s : Z) (p : option Padding)
    (l : Layer ndarray) :
  _conv2d astype_float32 WEIGHTS name nf k s p = Ok l ->
  exists kernel bias,
    get name "weights" = Ok kernel /\ get name "biases" = Ok bias
    /\ l = Conv2D name nf k s (default same p) kernel bias.
Proof.
  unfold _conv2d. intros H.
  bind_inv H. bind_inv H. injection H as <-.
  eauto.
Qed.

Lemma fully_connected_Ok (name : string) (units : Z) (l : Layer ndarray) :
  _fully_connected astype_float32 WEIGHTS name units = Ok l ->
  exists kernel bias,
    get name "weights" = Ok kernel /\ get name "biases" = Ok bias
    /\ l = Dense name units kernel bias.
Proof.
  unfold _fully_connected. intros H.
  bind_inv H. bind_inv H. injection H as <-.
  eauto.
Qed.

Lemma batch_norm_Ok (name : string) (l : Layer ndarray) :
  _batch_norm astype_float32 WEIGHTS name = Ok l ->
  exists scale offset mean variance,
    get name "scale" = Ok scale /\ get name "offset" = Ok offset
    /\ get name "mean" = Ok mean /\ get name "variance" = Ok variance
    /\ l = BatchNormalization name (1 # 100000) scale offset mean variance.
Proof.
  unfold _batch_norm. intros H.
  do 4 bind_inv H. injection H as <-.
  eauto 10.
Qed.

Lemma conv2d_describe (name : string) (nf k s : Z) (p : option Padding)
    (l : Layer ndarray) :
  _conv2d astype_float32 WEIGHTS name nf k s p = Ok l ->
  describe l = convolution name nf k s (default same p).
Proof.
  intros H. apply conv2d_Ok in H as (kernel & bias & _ & _ & ->). reflexivity.
Qed.

Lemma batch_norm_describe (name : string) (l : Layer ndarray) :
  _batch_norm astype_float32 WEIGHTS name = Ok l ->
  describe l = normalization name (1 # 100000).
Proof.
  intros H.
  apply batch_norm_Ok in H as (sc & off & mu & var & _ & _ & _ & _ & ->).
  reflexivity.
Qed.

(** C3 (as amended): a convolution layer built under [name] takes its kernel
    from the lookup of field ["weights"] and its bias from the lookup of field
    ["biases"] of that layer; the layer carries the name and the shape
    parameters it was asked for. *)
Theorem conv2d_initializers (name : string) (nf k s : Z) (p : option Padding)
    (l : Layer ndarray) :
  _conv2d astype_float32 WEIGHTS name nf k s p = Ok l ->
  exists kernel bias,
    get name "weights" = Ok kernel /\ get name "biases" = Ok bias
    /\ l = Conv2D name nf k s (default same p) kernel bias.
Proof. apply conv2d_Ok. Qed.

(** C4: a normalization layer built under [name] has epsilon 1e-5, its four
    parameters are the lookups of ["scale"], ["offset"], ["mean"] and
    ["variance"] under that name, no other entry of the store matters, and
    at inference it maps [x] to
    [(x - mean) / sqrt (variance + 1e-5) * scale + offset] per channel. *)
Theorem batch_norm_parameters (name : string) (l : Layer ndarray) :
  _batch_norm astype_float32 WEIGHTS name = Ok l ->
  exists scale offset mean variance,
    get name "scale" = Ok scale /\ get name "offset" = Ok offset
    /\ get name "mean" = Ok mean /\ get name "variance" = Ok variance
    /\ l = BatchNormalization name (1 # 100000) scale offset mean variance
    /\ (forall W' : gmap string (gmap string ndarray),
          (forall f, In f batch_norm_fields ->
                     _get_weights astype_float32 W' name f = get name f) ->
          _batch_norm astype_float32 W' name = Ok l)
    /\ (forall (entry : ndarray -> nat -> R) (c : nat) (x : R),
          batch_norm_inference entry l c x
          = Some ((x - entry mean c) / sqrt (entry variance c + 1 / 100000)
                  * entry scale c + entry offset c)%R).
Proof.
  intros H.
  destruct (batch_norm_Ok _ _ H) as (sc & off & mu & var & Hs & Ho & Hm & Hv & ->).
  exists sc, off, mu, var. repeat split; try assumption.
  - intros W' Hsame. unfold _batch_norm.
    rewrite !Hsame by (simpl; tauto).
    rewrite Hs, Ho, Hm, Hv. reflexivity.
  - intros entry c x. simpl. f_equal.
    replace (Q2R (1 # 100000)) with (1 / 100000)%R
      by (unfold Q2R; simpl; reflexivity).
    unfold Rdiv. ring.
Qed.

End LayerFactory.

(** C3, counterexample to the claim as stated: an archive whose layer
    [conv_1] holds the fields ["weights"] and ["biases"] builds the
    convolution, while the lookups of ["kernel"] and ["bias"] fail. *)
Lemma conv2d_kernel_bias_fields_absent :
  _conv2d (fun a : Z => a) conv_1_only "conv_1" 64 7 2 (Some valid)
    = Ok (Conv2D "conv_1" 64 7 2 valid 1 2)
  /\ _get_weights (fun a : Z => a) conv_1_only "conv_1" "kernel"
     = Raise (ValueError "No field kernel in layer conv_1.")
  /\ _get_weights (fun a : Z => a) conv_1_only "conv_1" "bias"
     = Raise (ValueError "No field bias in layer conv_1.").
Proof. repeat split; reflexivity. Qed.

Lemma conv2d_initializers_witness :
  exists kernel bias,
    _get_weights (fun a : Z => a) conv_1_only "conv_1" "weights" = Ok kernel
    /\ _get_weights (fun a : Z => a) conv_1_only "conv_1" "biases" = Ok bias
    /\ Conv2D "conv_1" 64 7 2 valid 1 2
       = Conv2D "conv_1" 64 7 2 (default same (Some valid)) kernel bias.
Proof.
  apply (conv2d_initializers (fun a : Z => a) conv_1_only
           "conv_1" 64 7 2 (Some valid)).
  reflexivity.
Defined.

Lemma batch_norm_parameters_witness :
  exists l,
    _batch_norm (fun a : Z => a) bn_1_only "bn_1" = Ok l
    /\ l = BatchNormalization "bn_1" (1 # 100000) 1 2 3 4
    /\ forall x : R,
         batch_norm_inference (fun a _ => IZR a) l 0 x
         = Some ((x - 3) / sqrt (4 + 1 / 100000) * 1 + 2)%R.
Proof.
  exists (BatchNormalization "bn_1" (1 # 100000) 1 2 3 4).
  split; [reflexivity |]. split; [reflexivity |].
  intros x.
  destruct (batch_norm_parameters (fun a : Z => a) bn_1_only "bn_1" _ eq_refl)
    as (sc & off & mu & var & Hs & Ho & Hm & Hv & Hl & _ & Hf).
  injection Hl as <- <- <- <-.
  apply (Hf (fun a _ => IZR a) 0%nat x).
Defined.

(** ** Framework rules *)

Section Framework.

Context {ndarray : Type}.
Implicit Types (l : Layer ndarray) (x t : Tensor ndarray).

Lemma call_Ok l x t :
  call l x = Ok t ->
  node t = Call l (node x) /\ compute_output_shape l (shape x) = Ok (shape t).
Proof.
  unfold call. intros H. bind_inv H. injection H as <-. auto.
Qed.

Lemma call_topology l x t :
  call l x = Ok t -> topology (node t) = g_apply (describe l) (topology (node x)).
Proof. intros H. apply call_Ok in H as [-> _]. reflexivity. Qed.

Lemma layers_Add_Ok x y t :
  layers_Add x y = Ok t ->
  node t = Add (node x) (node y) /\ merge_shape (shape x) (shape y) = Ok (shape t).
Proof.
  unfold layers_Add. intros H. bind_inv H. injection H as <-. auto.
Qed.

Lemma window_shape_channels (s s' : list (option Z)) (size stride : Z)
    (p : Padding) (ch : option Z) :
  window_shape s size stride p ch = Ok s' ->
  exists b h w, s' = [b; h; w; ch].
Proof.
  unfold window_shape.
  destruct s as [| b [| h [| w [| c [| ? ?]]]]]; try discriminate.
  destruct (_ && _); [| discriminate].
  intros H. bind_inv H. bind_inv H. injection H as <-. eauto.
Qed.

(** A convolution's output has as many channels as the layer has filters. *)
Lemma conv_call_shape (name : string) (f k s : Z) (p : Padding) (w b : ndarray) x t :
  call (Conv2D name f k s p w b) x = Ok t ->
  exists bd h' w', shape t = [bd; h'; w'; Some f].
Proof.
  intros H. apply call_Ok in H as [_ H]. simpl in H.
  destruct (0 <? f); [| discriminate].
  destruct (shape x) as [| ? [| ? [| ? [| [c |] [| ? ?]]]]]; try discriminate.
  apply window_shape_channels in H as (bd & h' & w' & ->). eauto.
Qed.

(** Normalization keeps the shape. *)
Lemma batch_norm_call_shape (name : string) (eps : Q) (g be m v : ndarray) x t :
  call (BatchNormalization name eps g be m v) x = Ok t -> shape t = shape x.
Proof.
  intros H. apply call_Ok in H as [_ H]. simpl in H.
  destruct (last (shape x)) as [[c |] |]; try discriminate.
  injection H as <-. reflexivity.
Qed.

(** Two channel counts merge only when equal or when one of them is 1. *)
Lemma merge_shape_channels (b1 h1 w1 b2 h2 w2 : option Z) (c1 c2 : Z)
    (s : list (option Z)) :
  merge_shape [b1; h1; w1; Some c1] [b2; h2; w2; Some c2] = Ok s ->
  c1 = c2 \/ c1 = 1 \/ c2 = 1.
Proof.
  cbn [merge_shape]. intros H. bind_inv_all.
  match goal with
  | E : merge_dim (Some c1) (Some c2) = Ok _ |- _ => unfold merge_dim in E
  end.
  destruct (Z.eqb_spec c1 1); [auto |].
  destruct (Z.eqb_spec c2 1); [auto |].
  destruct (Z.eqb_spec c1 c2); [auto | discriminate].
Qed.

End Framework.

(** ** Residual block builder *)

Lemma rbind_assoc {A B C : Type} (m : result A) (f : A -> result B)
    (g : B -> result C) :
  rbind (rbind m f) g = rbind m (fun a => rbind (f a) g).
Proof. destruct m; reflexivity. Qed.

Lemma branch_name (kind : string) (stage block : Z) (suffix : string) :
  ((kind +:+ "_stage") +:+ str stage +:+ "_block" +:+ str block +:+ "_branch")
    +:+ suffix
  = block_layer_name kind stage block ("_branch" +:+ suffix).
Proof. unfold block_layer_name. rewrite !string_app_assoc. reflexivity. Qed.

(** Runs two builders that perform the same steps side by side: after
    flattening the nested binds, the first step of both is the same call,
    which either raises on both sides or returns the same value to both. *)
Ltac same_steps :=
  repeat (rewrite ?rbind_assoc; cbn [rbind];
          match goal with
          | |- rbind ?m _ = rbind ?m _ => destruct m; [cbn [rbind] | reflexivity]
          end);
  try reflexivity.

Section Blocks.

Context {ndarray : Type} (astype_float32 : ndarray -> ndarray).
Variable WEIGHTS : gmap string (gmap string ndarray).
Implicit Types (x t : Tensor ndarray) (c : Z * Z * Z).

Local Abbreviation main_path := (bottleneck_main_path astype_float32 WEIGHTS).
Local Abbreviation shortcut_path := (projection_shortcut astype_float32 WEIGHTS).
Local Abbreviation identity_block := (_identity_block astype_float32 WEIGHTS).
Local Abbreviation conv_block := (_conv_block astype_float32 WEIGHTS).

(** The identity block is the shared main path at stride 1, added to the
    block input. *)
Lemma identity_block_unfold (stage block : Z) x c (k : Z) :
  identity_block stage block x c k
  = let* m := main_path stage block x c k 1 in
    let* s := layers_Add m x in
    Ok (tf_nn_relu s).
Proof.
  destruct c as [[c1 c2] c3].
  unfold _identity_block, bottleneck_main_path, conv_then_norm.
  rewrite <- !(branch_name _ stage block "2a"),
          <- !(branch_name _ stage block "2b"),
          <- !(branch_name _ stage block "2c").
  change ("conv" +:+ "_stage") with "conv_stage".
  change ("bn" +:+ "_stage") with "bn_stage".
  same_steps.
Qed.

(** The projection block builds its shortcut first, then the shared main
    path at the block's stride, and adds the two. *)
Lemma conv_block_unfold (stage block : Z) x c (k s : option Z) :
  conv_block stage block x c k s
  = let* sc := shortcut_path stage block x c (default 2 s) in
    let* m := main_path stage block x c (default 3 k) (default 2 s) in
    let* sum := layers_Add m sc in
    Ok (tf_nn_relu sum).
Proof.
  destruct c as [[c1 c2] c3].
  unfold _conv_block, projection_shortcut, bottleneck_main_path, conv_then_norm.
  rewrite <- !(branch_name _ stage block "2a"),
          <- !(branch_name _ stage block "2b"),
          <- !(branch_name _ stage block "2c").
  change ("conv" +:+ "_stage") with "conv_stage".
  change ("bn" +:+ "_stage") with "bn_stage".
  unfold block_layer_name. cbn [snd].
  same_steps.
Qed.

Lemma conv_then_norm_Ok (stage block : Z) (branch : string) (f k s : Z) x t :
  conv_then_norm astype_float32 WEIGHTS stage block branch f k s x = Ok t ->
  topology (node t) = conv_norm stage block branch f k s (topology (node x))
  /\ exists bd h w, shape t = [bd; h; w; Some f].
Proof.
  unfold conv_then_norm. intros H. do 3 bind_inv H.
  pose proof (conv2d_Ok _ _ _ _ _ _ _ _ E) as (kernel & bias & _ & _ & ->).
  pose proof (batch_norm_Ok _ _ _ _ E1) as (sc & off & mu & var & _ & _ & _ & _ & ->).
  split.
  - rewrite (call_topology _ _ _ H), (call_topology _ _ _ E0). reflexivity.
  - rewrite (batch_norm_call_shape _ _ _ _ _ _ _ _ H).
    exact (conv_call_shape _ _ _ _ _ _ _ _ _ E0).
Qed.

Lemma main_path_Ok (stage block : Z) x (c1 c2 c3 k s : Z) t :
  main_path stage block x (c1, c2, c3) k s = Ok t ->
  topology (node t) = spec_main_path stage block (c1, c2, c3) k s (topology (node x))
  /\ exists bd h w, shape t = [bd; h; w; Some c3].
Proof.
  unfold bottleneck_main_path, spec_main_path. intros H. do 2 bind_inv H.
  apply conv_then_norm_Ok in E as [Ta _], E0 as [Tb _], H as [Tc Sc].
  split; [| exact Sc].
  rewrite Tc. simpl. rewrite Tb. simpl. rewrite Ta. reflexivity.
Qed.

Lemma identity_block_topology (stage block : Z) x c (k : Z) t :
  identity_block stage block x c k = Ok t ->
  topology (node t) = spec_identity_block stage block c k (topology (node x)).
Proof.
  rewrite identity_block_unfold. intros H. do 2 bind_inv H. injection H as <-.
  destruct c as [[c1 c2] c3].
  apply main_path_Ok in E as [Tm _]. apply layers_Add_Ok in E0 as [Ns _].
  unfold spec_identity_block. simpl. rewrite Ns. simpl. rewrite Tm. reflexivity.
Qed.

Lemma conv_block_topology (stage block : Z) x c (k s : option Z) t :
  conv_block stage block x c k s = Ok t ->
  topology (node t)
  = spec_projection_block stage block c (default 3 k) (default 2 s)
      (topology (node x)).
Proof.
  rewrite conv_block_unfold. intros H. do 3 bind_inv H. injection H as <-.
  destruct c as [[c1 c2] c3].
  apply conv_then_norm_Ok in E as [Ts _].
  apply main_path_Ok in E0 as [Tm _]. apply layers_Add_Ok in E1 as [Ns _].
  unfold spec_projection_block, spec_projection_shortcut.
  simpl. rewrite Ns. simpl. rewrite Tm, Ts. reflexivity.
Qed.

End Blocks.

Section BlockClaims.

Context {ndarray : Type} (astype_float32 : ndarray -> ndarray).
Variable WEIGHTS : gmap string (gmap string ndarray).
Implicit Types (x t : Tensor ndarray).

(** C5: a projection block with filter widths (c1, c2, c3), kernel size k
    (3 when not given) and stride s (2 when not given) is
    activation(main + shortcut), where the shortcut is a 1x1
    convolution with c3 filters at stride s followed by normalization and the
    main path is 1x1 conv (c1, stride s), norm, ReLU, kxk conv (c2, stride 1),
    norm, ReLU, 1x1 conv (c3, stride 1), norm, both applied to the block
    input. *)
Theorem conv_block_structure (stage block : Z) x (c1 c2 c3 : Z)
    (kernel_size stride : option Z) t :
  let k := default 3 kernel_size in
  let s := default 2 stride in
  _conv_block astype_float32 WEIGHTS stage block x (c1, c2, c3) kernel_size stride
    = Ok t ->
  exists main shortcut,
    node t = Relu (Add main shortcut)
    /\ topology shortcut
       = g_apply (normalization (block_layer_name "bn" stage block "_proj_shortcut")
                                (1 # 100000))
           (g_apply (convolution (block_layer_name "conv" stage block "_proj_shortcut")
                                 c3 1 s same)
              (topology (node x)))
    /\ topology main
       = spec_main_path stage block (c1, c2, c3) k s (topology (node x))
    /\ topology (node t)
       = spec_projection_block stage block (c1, c2, c3) k s (topology (node x)).
Proof.
  intros k s H. pose proof (conv_block_topology _ _ _ _ _ _ _ _ _ H) as Ht.
  rewrite conv_block_unfold in H. do 3 bind_inv H. injection H as <-.
  apply conv_then_norm_Ok in E as [Ts _].
  apply main_path_Ok in E0 as [Tm _]. apply layers_Add_Ok in E1 as [Ns _].
  exists (node r0), (node r). repeat split.
  - simpl. rewrite Ns. reflexivity.
  - exact Ts.
  - exact Tm.
  - exact Ht.
Qed.

(** C6: an identity block is activation(main + input): the second operand of
    the sum is the block input itself, and the main path is the one a
    projection block with the same indices, widths and kernel size builds at
    stride 1, layer for layer. *)
Theorem identity_block_structure (stage block : Z) x (c1 c2 c3 k : Z) t :
  _identity_block astype_float32 WEIGHTS stage block x (c1, c2, c3) k = Ok t ->
  exists main,
    bottleneck_main_path astype_float32 WEIGHTS stage block x (c1, c2, c3) k 1
      = Ok main
    /\ node t = Relu (Add (node main) (node x))
    /\ topology (node main)
       = spec_main_path stage block (c1, c2, c3) k 1 (topology (node x))
    /\ topology (node t)
       = spec_identity_block stage block (c1, c2, c3) k (topology (node x))
    /\ forall t',
         _conv_block astype_float32 WEIGHTS stage block x (c1, c2, c3)
           (Some k) (Some 1) = Ok t' ->
         exists shortcut, node t' = Relu (Add (node main) shortcut).
Proof.
  intros H. pose proof (identity_block_topology _ _ _ _ _ _ _ _ H) as Ht.
  rewrite identity_block_unfold in H. do 2 bind_inv H. injection H as <-.
  exists r. split; [exact E |].
  pose proof E as Tm. apply main_path_Ok in Tm as [Tm _].
  apply layers_Add_Ok in E0 as [Ns _].
  repeat split.
  - simpl. rewrite Ns. reflexivity.
  - exact Tm.
  - exact Ht.
  - intros t' H'. rewrite conv_block_unfold in H'.
    change (default 3 (Some k)) with k in H'.
    change (default 2 (Some 1)) with 1 in H'.
    bind_inv H'. rewrite E in H'. cbn [rbind] in H'.
    bind_inv H'. injection H' as <-.
    apply layers_Add_Ok in E1 as [Ns' _].
    exists (node r1). simpl. rewrite Ns'. reflexivity.
Qed.

End BlockClaims.

(** ** Network assembler *)

Lemma spec_stages_unfold (x : Graph) :
  fold_left (fun x st => spec_stage st x) spec_stages x
  = spec_identity_block 3 2 (256, 256, 1024) 3
      (spec_identity_block 3 1 (256, 256, 1024) 3
      (spec_projection_block 3 0 (256, 256, 1024) 3 2
      (spec_identity_block 2 5 (128, 128, 512) 3
      (spec_identity_block 2 4 (128, 128, 512) 3
      (spec_identity_block 2 3 (128, 128, 512) 3
      (spec_identity_block 2 2 (128, 128, 512) 3
      (spec_identity_block 2 1 (128, 128, 512) 3
      (spec_projection_block 2 0 (128, 128, 512) 3 2
      (spec_identity_block 1 3 (64, 64, 256) 3
      (spec_identity_block 1 2 (64, 64, 256) 3
      (spec_identity_block 1 1 (64, 64, 256) 3
      (spec_projection_block 1 0 (64, 64, 256) 3 2
      (spec_identity_block 0 2 (32, 32, 128) 3
      (spec_identity_block 0 1 (32, 32, 128) 3
      (spec_projection_block 0 0 (32, 32, 128) 3 1 x))))))))))))))).
Proof. reflexivity. Qed.

Lemma reshape_rows (s s' : list (option Z)) :
  reshape_shape s [-1; 1024] = Ok s' ->
  exists bd rows, s' = [bd; rows; Some 1024].
Proof.
  unfold reshape_shape. destruct s as [| bd dims]; [discriminate |].
  destruct (all_known dims) as [ds |].
  - intros H. bind_inv H. injection H as <-.
    unfold fix_unknown_dimension in E. simpl in E.
    destruct (negb _); [discriminate |]. injection E as <-.
    simpl. eauto.
  - intros H. injection H as <-. simpl. eauto.
Qed.

Section Assembler.

Context {ndarray : Type} (astype_float32 : ndarray -> ndarray).
Variable WEIGHTS : gmap string (gmap string ndarray).
Implicit Types (x t : Tensor ndarray) (m : KerasModel ndarray).

Local Abbreviation make :=
  (make_open_nsfw_model_and_load_weights astype_float32 WEIGHTS).

Lemma tf_pad_Ok x t (paddings : list (Z * Z)) (mode : string) :
  tf_pad x paddings mode = Ok t ->
  node t = Pad (node x) paddings mode
  /\ pad_shape (shape x) paddings = Ok (shape t).
Proof. unfold tf_pad. intros H. bind_inv H. injection H as <-. auto. Qed.

(** What a successful run of the assembler went through: the stem and the
    sixteen blocks produce [features], on which the head is built. *)
Lemma make_Ok (input_shape : option (Z * Z * Z)) m :
  make input_shape = Ok m ->
  exists features pooled flat fc logits,
    inputs m = layers_Input (default (224, 224, 3) input_shape) "input"
    /\ topology (node features)
       = fold_left (fun g st => spec_stage st g) spec_stages
           (spec_stem (g_input (default (224, 224, 3) input_shape) "input"))
    /\ call (AveragePooling2D 7 1 valid "pool") features = Ok pooled
    /\ call (Reshape [-1; 1024]) pooled = Ok flat
    /\ _fully_connected astype_float32 WEIGHTS "fc_nsfw" 2 = Ok fc
    /\ call fc flat = Ok logits
    /\ outputs m = tf_nn_softmax logits "predictions".
Proof.
  intros H. unfold make_open_nsfw_model_and_load_weights in H.
  set (shp := default (224, 224, 3) input_shape) in *.
  do 26 bind_inv H. injection H as <-.
  exists r20, r21, r22, r23, r24. repeat split; try assumption.
  rewrite spec_stages_unfold.
  rewrite (identity_block_topology _ _ _ _ _ _ _ _ E20),
          (identity_block_topology _ _ _ _ _ _ _ _ E19),
          (conv_block_topology _ _ _ _ _ _ _ _ _ E18),
          (identity_block_topology _ _ _ _ _ _ _ _ E17),
          (identity_block_topology _ _ _ _ _ _ _ _ E16),
          (identity_block_topology _ _ _ _ _ _ _ _ E15),
          (identity_block_topology _ _ _ _ _ _ _ _ E14),
          (identity_block_topology _ _ _ _ _ _ _ _ E13),
          (conv_block_topology _ _ _ _ _ _ _ _ _ E12),
          (identity_block_topology _ _ _ _ _ _ _ _ E11),
          (identity_block_topology _ _ _ _ _ _ _ _ E10),
          (identity_block_topology _ _ _ _ _ _ _ _ E9),
          (conv_block_topology _ _ _ _ _ _ _ _ _ E8),
          (identity_block_topology _ _ _ _ _ _ _ _ E7),
          (identity_block_topology _ _ _ _ _ _ _ _ E6),
          (conv_block_topology _ _ _ _ _ _ _ _ _ E5).
  change (default 3 (Some 3)) with 3.
  change (default 2 (Some 1)) with 1.
  change (default 2 (Some 2)) with 2.
  do 16 f_equal.
  rewrite (call_topology _ _ _ E4). simpl.
  rewrite (call_topology _ _ _ E3), (call_topology _ _ _ E1).
  rewrite (batch_norm_describe _ _ _ _ E2), (conv2d_describe _ _ _ _ _ _ _ _ E0).
  apply tf_pad_Ok in E as [-> _].
  destruct shp as [[h w] c]. reflexivity.
Qed.

End Assembler.

Section AssemblerClaims.

Context {ndarray : Type} (astype_float32 : ndarray -> ndarray).
Variable WEIGHTS : gmap string (gmap string ndarray).
Implicit Types (m : KerasModel ndarray).

(** C1: the assembled network is the stem, then the four stages of the
    schedule (3, 4, 6 and 3 blocks: one projection block and 2, 3, 5 and 2
    identity blocks; widths (32,32,128), (64,64,256), (128,128,512),
    (256,256,1024); projection strides 1, 2, 2, 2), then the one head that
    ends in the softmax over 2 units. *)
Theorem network_topology (input_shape : option (Z * Z * Z)) m :
  make_open_nsfw_model_and_load_weights astype_float32 WEIGHTS input_shape = Ok m ->
  topology (node (outputs m)) = spec_network (default (224, 224, 3) input_shape)
  /\ map identity_blocks spec_stages = [2; 3; 5; 2]%nat
  /\ map block_count spec_stages = [3; 4; 6; 3]%nat
  /\ map widths spec_stages
     = [(32, 32, 128); (64, 64, 256); (128, 128, 512); (256, 256, 1024)]
  /\ map projection_stride spec_stages = [1; 2; 2; 2]
  /\ map stage_index spec_stages = [0; 1; 2; 3].
Proof.
  intros H.
  apply make_Ok in H
    as (features & pooled & flat & fc & logits & _ & Tf & Hp & Hr & Hfc & Hl & ->).
  repeat split.
  unfold spec_network, spec_head. rewrite <- Tf. simpl.
  rewrite (call_topology _ _ _ Hl), (call_topology _ _ _ Hr),
          (call_topology _ _ _ Hp).
  apply fully_connected_Ok in Hfc as (kernel & bias & _ & _ & ->).
  reflexivity.
Qed.

(** C10: the input slot of the assembled model is the Input layer named
    [input] with the shape the caller gave, (224, 224, 3) when none is given;
    the assembler compares the shape with nothing. *)
Theorem input_shape_verbatim (input_shape : option (Z * Z * Z)) m :
  make_open_nsfw_model_and_load_weights astype_float32 WEIGHTS input_shape = Ok m ->
  let '(h, w, c) := default (224, 224, 3) input_shape in
  inputs m
  = {| shape := [None; Some h; Some w; Some c]; node := Input (h, w, c) "input" |}.
Proof.
  intros H.
  apply make_Ok in H as (? & ? & ? & ? & ? & -> & _).
  destruct (default _ input_shape) as [[h w] c]. reflexivity.
Qed.

End AssemblerClaims.

(** ** The builders on the test archive *)

Lemma default_model_output_shape :
  built_output_shape
    (make_open_nsfw_model_and_load_weights keep example_archive None)
  = Some [None; Some 1; Some 2].
Proof. vm_compute. reflexivity. Qed.

Lemma large_model_output_shape :
  built_output_shape
    (make_open_nsfw_model_and_load_weights keep example_archive
       (Some (448, 448, 3)))
  = Some [None; Some 64; Some 2].
Proof. vm_compute. reflexivity. Qed.

Lemma example_conv_block_shape :
  built_shape
    (_conv_block keep example_archive 1 0 example_block_input (64, 64, 256)
       (Some 3) (Some 2))
  = Some [None; Some 28; Some 28; Some 256].
Proof. vm_compute. reflexivity. Qed.

Lemma example_identity_block_shape :
  built_shape
    (_identity_block keep example_archive 0 0 example_block_input (32, 32, 128) 3)
  = Some [None; Some 56; Some 56; Some 128].
Proof. vm_compute. reflexivity. Qed.

Lemma example_stride_1_conv_block_shape :
  built_shape
    (_conv_block keep example_archive 0 0 example_block_input (32, 32, 128)
       (Some 3) (Some 1))
  = Some [None; Some 56; Some 56; Some 128].
Proof. vm_compute. reflexivity. Qed.

Lemma example_mismatch_message :
  _identity_block keep example_archive 0 1 example_block_input (32, 32, 64) 3
  = Raise (ValueError "Inputs have incompatible shapes.").
Proof. vm_compute. reflexivity. Qed.

Lemma network_topology_witness :
  exists m,
    make_open_nsfw_model_and_load_weights keep example_archive None = Ok m
    /\ topology (node (outputs m)) = spec_network (224, 224, 3)
    /\ shape (outputs m) = [None; Some 1; Some 2].
Proof.
  pose proof default_model_output_shape as Hs.
  destruct (make_open_nsfw_model_and_load_weights keep example_archive None)
    as [m | e] eqn:E; [| discriminate Hs].
  exists m. split; [reflexivity |]. split.
  - exact (proj1 (network_topology keep example_archive None m E)).
  - injection Hs as Hs. exact Hs.
Defined.

Lemma input_shape_verbatim_witness :
  exists m,
    make_open_nsfw_model_and_load_weights keep example_archive
      (Some (448, 448, 3)) = Ok m
    /\ inputs m
       = {| shape := [None; Some 448; Some 448; Some 3];
            node := Input (448, 448, 3) "input" |}.
Proof.
  pose proof large_model_output_shape as Hs.
  destruct (make_open_nsfw_model_and_load_weights keep example_archive
              (Some (448, 448, 3))) as [m | e] eqn:E; [| discriminate Hs].
  exists m. split; [reflexivity |].
  exact (input_shape_verbatim keep example_archive (Some (448, 448, 3)) m E).
Defined.

Lemma conv_block_structure_witness :
  exists t,
    _conv_block keep example_archive 1 0 example_block_input (64, 64, 256)
      (Some 3) (Some 2) = Ok t
    /\ topology (node t)
       = spec_projection_block 1 0 (64, 64, 256) 3 2 (g_input (56, 56, 128) "input")
    /\ shape t = [None; Some 28; Some 28; Some 256].
Proof.
  pose proof example_conv_block_shape as Hs.
  destruct (_conv_block keep example_archive 1 0 example_block_input
              (64, 64, 256) (Some 3) (Some 2)) as [t | e] eqn:E;
    [| discriminate Hs].
  destruct (conv_block_structure keep example_archive 1 0 example_block_input
              64 64 256 (Some 3) (Some 2) t E)
    as (main & shortcut & _ & _ & _ & Ht).
  exists t. split; [reflexivity |]. split.
  - exact Ht.
  - injection Hs as Hs. exact Hs.
Defined.

Lemma identity_block_structure_witness :
  exists t t' main shortcut,
    _identity_block keep example_archive 0 0 example_block_input (32, 32, 128) 3
      = Ok t
    /\ _conv_block keep example_archive 0 0 example_block_input (32, 32, 128)
         (Some 3) (Some 1) = Ok t'
    /\ node t = Relu (Add (node main) (node example_block_input))
    /\ node t' = Relu (Add (node main) shortcut)
    /\ topology (node t)
       = spec_identity_block 0 0 (32, 32, 128) 3 (g_input (56, 56, 128) "input").
Proof.
  pose proof example_identity_block_shape as Hs.
  pose proof example_stride_1_conv_block_shape as Hs'.
  destruct (_identity_block keep example_archive 0 0 example_block_input
              (32, 32, 128) 3) as [t | e] eqn:E; [| discriminate Hs].
  destruct (_conv_block keep example_archive 0 0 example_block_input
              (32, 32, 128) (Some 3) (Some 1)) as [t' | e] eqn:E';
    [| discriminate Hs'].
  destruct (identity_block_structure keep example_archive 0 0 example_block_input
              32 32 128 3 t E) as (main & _ & Hn & _ & Ht & Hc).
  destruct (Hc t' E') as (shortcut & Hn').
  exists t, t', main, shortcut. repeat split; assumption.
Defined.

(** C8, counterexample to the claim as stated: an identity block whose last
    filter width is 1 on an input with 128 channels is built without error;
    the Add layer broadcasts the one-channel main path over the input. *)
Lemma identity_block_broadcasts :
  built_shape
    (_identity_block keep example_archive 0 1 example_block_input (32, 32, 1) 3)
  = Some [None; Some 56; Some 56; Some 128].
Proof. vm_compute. reflexivity. Qed.

(** * Further properties of the builders *)

(** ** Layer factory: the errors of the lookups *)

Section FactoryStores.

Context {ndarray : Type} (astype_float32 : ndarray -> ndarray).
Variable WEIGHTS : gmap string (gmap string ndarray).

Lemma get_weights_Raise (layer field : string) (e : exn) :
  _get_weights astype_float32 WEIGHTS layer field = Raise e ->
  mentions (message e) layer = true.
Proof.
  unfold _get_weights.
  destruct (WEIGHTS !! layer) as [w |].
  - destruct (w !! field) as [a |]; [discriminate |].
    intros H. injection H as <-. unfold message.
    apply (mentions_later ("No field " +:+ field)).
    rewrite <- string_app_assoc.
    apply (mentions_infix " in layer " layer ".").
  - intros H. injection H as <-. unfold message. apply mentions_infix.
Qed.

(** X3: the lookups run in source order, so the field reported missing is the
    first one of the read order that the layer lacks. *)
Theorem factory_reports_first_missing_field (name : string)
    (w : gmap string ndarray) (present : list string) (f : string)
    (rest : list string) :
  WEIGHTS !! name = Some w ->
  (forall g, In g present -> is_Some (w !! g)) ->
  w !! f = None ->
  let e := ValueError ("No field " +:+ f +:+ " in layer " +:+ name +:+ ".") in
  (kernel_bias_fields = (present ++ f :: rest)%list ->
   (forall nf k s p, _conv2d astype_float32 WEIGHTS name nf k s p = Raise e)
   /\ (forall units, _fully_connected astype_float32 WEIGHTS name units = Raise e))
  /\ (batch_norm_fields = (present ++ f :: rest)%list ->
      _batch_norm astype_float32 WEIGHTS name = Raise e).
Proof.
  intros Hw Hp Hf e.
  assert (Hget : forall g, In g present ->
             exists a, _get_weights astype_float32 WEIGHTS name g = Ok a).
  { intros g Hg. destruct (Hp g Hg) as [a Ha].
    exists (astype_float32 a). unfold _get_weights. rewrite Hw, Ha. reflexivity. }
  assert (Hmiss : _get_weights astype_float32 WEIGHTS name f = Raise e).
  { unfold _get_weights. rewrite Hw, Hf. reflexivity. }
  unfold _conv2d, _fully_connected, _batch_norm.
  split; intros Hl.
  - destruct present as [| a [| b present]]; simpl in Hl.
    + injection Hl as <- _. rewrite Hmiss. auto.
    + injection Hl as <- <- _.
      destruct (Hget "weights") as [v ->]; [simpl; auto |].
      simpl. rewrite Hmiss. auto.
    + injection Hl as _ _ Hl. destruct present; discriminate Hl.
  - destruct present as [| a [| b [| c [| d present]]]]; simpl in Hl.
    + injection Hl as <- _. rewrite Hmiss. reflexivity.
    + injection Hl as <- <- _.
      destruct (Hget "scale") as [v ->]; [simpl; auto |].
      simpl. rewrite Hmiss. reflexivity.
    + injection Hl as <- <- <- _.
      destruct (Hget "scale") as [v ->]; [simpl; auto |].
      destruct (Hget "offset") as [v' ->]; [simpl; auto |].
      simpl. rewrite Hmiss. reflexivity.
    + injection Hl as <- <- <- <- _.
      destruct (Hget "scale") as [v ->]; [simpl; auto |].
      destruct (Hget "offset") as [v' ->]; [simpl; auto |].
      destruct (Hget "mean") as [v'' ->]; [simpl; auto |].
      simpl. rewrite Hmiss. reflexivity.
    + injection Hl as _ _ _ _ Hl. destruct present; discriminate Hl.
Qed.

End FactoryStores.

(** ** Shapes through the framework rules *)

Lemma ceil_div_1 (n : Z) : ceil_div n 1 = n.
Proof. unfold ceil_div. rewrite Z.div_1_r. lia. Qed.

Lemma ceil_div_pos (n s : Z) : 0 < n -> 0 < s -> 0 < ceil_div n s.
Proof.
  intros Hn Hs. unfold ceil_div.
  apply Z.lt_le_trans with 1; [lia |].
  apply Z.div_le_lower_bound; lia.
Qed.

Lemma merge_dim_same (d : option Z) : merge_dim d d = Ok d.
Proof.
  destruct d as [a |]; [| reflexivity]. unfold merge_dim.
  destruct (Z.eqb_spec a 1); [reflexivity |].
  rewrite Z.eqb_refl. reflexivity.
Qed.

Lemma merge_shape_same (s : list (option Z)) : merge_shape s s = Ok s.
Proof.
  induction s as [| d s IH]; [reflexivity |].
  cbn [merge_shape]. rewrite merge_dim_same, IH. reflexivity.
Qed.

Lemma window_shape_known (bd c ch : option Z) (h w size stride : Z) (p : Padding)
    (s' : list (option Z)) :
  window_shape [bd; Some h; Some w; c] size stride p ch = Ok s'
  <-> s' = [bd; Some (conv_output_length h size p stride);
            Some (conv_output_length w size p stride); ch]
      /\ 0 < size /\ 0 < stride
      /\ 0 < conv_output_length h size p stride
      /\ 0 < conv_output_length w size p stride.
Proof.
  unfold window_shape, window_dim.
  destruct (Z.ltb_spec 0 size); destruct (Z.ltb_spec 0 stride); simpl;
    try (split; [discriminate | lia]).
  destruct (Z.ltb_spec 0 (conv_output_length h size p stride)); simpl;
    try (split; [discriminate | lia]).
  destruct (Z.ltb_spec 0 (conv_output_length w size p stride)); simpl;
    try (split; [discriminate | lia]).
  split.
  - intros H'. injection H' as <-. auto.
  - intros (-> & _). reflexivity.
Qed.

Section KnownShapes.

Context {ndarray : Type}.
Implicit Types (x t : Tensor ndarray).

(** A convolution that was applied to a tensor of known spatial size. *)
Lemma conv_call_known (name : string) (f k s : Z) (p : Padding)
    (kernel bias : ndarray) x t (bd : option Z) (h w c : Z) :
  shape x = [bd; Some h; Some w; Some c] ->
  call (Conv2D name f k s p kernel bias) x = Ok t ->
  t = {| shape := [bd; Some (conv_output_length h k p s);
                   Some (conv_output_length w k p s); Some f];
         node := Call (Conv2D name f k s p kernel bias) (node x) |}
  /\ 0 < f /\ 0 < k /\ 0 < s
  /\ 0 < conv_output_length h k p s /\ 0 < conv_output_length w k p s.
Proof.
  intros Hx. unfold call. rewrite Hx. cbn [compute_output_shape].
  destruct (Z.ltb_spec 0 f); [| discriminate].
  intros H'. bind_inv H'. injection H' as <-.
  apply window_shape_known in E as (-> & ? & ? & ? & ?). auto 10.
Qed.

(** Pooling that was applied to a tensor of known spatial size keeps the
    channels. *)
Lemma pool_call_known (l : Layer ndarray) (size stride : Z) (p : Padding) x t
    (bd : option Z) (h w c : Z) :
  (l = MaxPooling2D size stride p
   \/ exists name, l = AveragePooling2D size stride p name) ->
  shape x = [bd; Some h; Some w; Some c] ->
  call l x = Ok t ->
  t = {| shape := [bd; Some (conv_output_length h size p stride);
                   Some (conv_output_length w size p stride); Some c];
         node := Call l (node x) |}
  /\ 0 < size /\ 0 < stride
  /\ 0 < conv_output_length h size p stride
  /\ 0 < conv_output_length w size p stride.
Proof.
  intros Hl Hx. unfold call. rewrite Hx.
  assert (Hc : compute_output_shape l [bd; Some h; Some w; Some c]
               = window_shape [bd; Some h; Some w; Some c] size stride p (Some c))
    by (destruct Hl as [-> | [name ->]]; reflexivity).
  rewrite Hc.
  intros H'. bind_inv H'. injection H' as <-.
  apply window_shape_known in E as (-> & ? & ? & ? & ?). auto 10.
Qed.

End KnownShapes.

(** ** Blocks on inputs of known shape *)

Section BlockShapes.

Context {ndarray : Type} (astype_float32 : ndarray -> ndarray).
Variable WEIGHTS : gmap string (gmap string ndarray).
Implicit Types (x t : Tensor ndarray).

Lemma conv2d_has_fields (name : string) (nf k s : Z) (p : option Padding)
    (l : Layer ndarray) :
  _conv2d astype_float32 WEIGHTS name nf k s p = Ok l ->
  has_fields WEIGHTS name kernel_bias_fields = true.
Proof.
  unfold _conv2d, _get_weights, has_fields.
  destruct (WEIGHTS !! name) as [w |]; simpl; [| discriminate].
  destruct (w !! "weights"); [| discriminate].
  destruct (w !! "biases"); [reflexivity | discriminate].
Qed.

Lemma fully_connected_has_fields (name : string) (units : Z) (l : Layer ndarray) :
  _fully_connected astype_float32 WEIGHTS name units = Ok l ->
  has_fields WEIGHTS name kernel_bias_fields = true.
Proof.
  unfold _fully_connected, _get_weights, has_fields.
  destruct (WEIGHTS !! name) as [w |]; simpl; [| discriminate].
  destruct (w !! "weights"); [| discriminate].
  destruct (w !! "biases"); [reflexivity | discriminate].
Qed.

Lemma batch_norm_has_fields (name : string) (l : Layer ndarray) :
  _batch_norm astype_float32 WEIGHTS name = Ok l ->
  has_fields WEIGHTS name batch_norm_fields = true.
Proof.
  unfold _batch_norm, _get_weights, has_fields.
  destruct (WEIGHTS !! name) as [w |]; simpl; [| discriminate].
  destruct (w !! "scale"); [| discriminate].
  destruct (w !! "offset"); [| discriminate].
  destruct (w !! "mean"); [| discriminate].
  destruct (w !! "variance"); [reflexivity | discriminate].
Qed.

Lemma branch_layers_present (stage block : Z) (branch : string) :
  all_present WEIGHTS (branch_layers stage block branch) = true
  <-> has_fields WEIGHTS (block_layer_name "conv" stage block branch)
        kernel_bias_fields = true
      /\ has_fields WEIGHTS (block_layer_name "bn" stage block branch)
           batch_norm_fields = true.
Proof.
  unfold all_present, branch_layers. cbn [forallb].
  rewrite andb_true_r. apply andb_true_iff.
Qed.

Lemma all_present_app (l1 l2 : list (string * list string)) :
  all_present WEIGHTS (l1 ++ l2) = true
  <-> all_present WEIGHTS l1 = true /\ all_present WEIGHTS l2 = true.
Proof. unfold all_present. rewrite forallb_app. apply andb_true_iff. Qed.

(** One convolution with ["same"] padding and its normalization: what a
    successful run says about the store and the shapes. *)
Lemma conv_then_norm_known (stage block : Z) (branch : string) (f k s : Z) x t
    (bd : option Z) (h w c : Z) :
  shape x = [bd; Some h; Some w; Some c] ->
  conv_then_norm astype_float32 WEIGHTS stage block branch f k s x = Ok t ->
  shape t = [bd; Some (ceil_div h s); Some (ceil_div w s); Some f]
  /\ all_present WEIGHTS (branch_layers stage block branch) = true
  /\ 0 < ceil_div h s /\ 0 < ceil_div w s.
Proof.
  intros Hx H. unfold conv_then_norm in H. do 3 bind_inv H.
  assert (Hc : has_fields WEIGHTS (block_layer_name "conv" stage block branch)
                 kernel_bias_fields = true)
    by (eapply conv2d_has_fields; eauto).
  assert (Hb : has_fields WEIGHTS (block_layer_name "bn" stage block branch)
                 batch_norm_fields = true)
    by (eapply batch_norm_has_fields; eauto).
  apply conv2d_Ok in E as (kernel & bias & _ & _ & ->).
  apply batch_norm_Ok in E1 as (sc & off & mu & var & _ & _ & _ & _ & ->).
  apply (conv_call_known _ _ _ _ _ _ _ _ _ _ _ _ _ Hx) in E0
    as (-> & _ & _ & _ & Hh & Hw).
  apply batch_norm_call_shape in H. rewrite H.
  split; [reflexivity |]. split; [apply branch_layers_present; auto |].
  split; assumption.
Qed.

End BlockShapes.

Lemma merge_shape_channel (bd h w : option Z) (c3 c : Z) (s : list (option Z)) :
  merge_shape [bd; h; w; Some c3] [bd; h; w; Some c] = Ok s ->
  s = [bd; h; w; Some (if c =? 1 then c3 else c)].
Proof.
  cbn [merge_shape]. rewrite !merge_dim_same. cbn [rbind].
  unfold merge_dim.
  destruct (Z.eqb_spec c3 1) as [-> | H3]; cbn [rbind].
  - intros H. injection H as <-. destruct (Z.eqb_spec c 1) as [-> |]; reflexivity.
  - destruct (Z.eqb_spec c 1) as [-> | Hc]; cbn [rbind].
    + intros H. injection H as <-. reflexivity.
    + destruct (Z.eqb_spec c3 c) as [-> |]; cbn [rbind]; [| discriminate].
      intros H. injection H as <-. reflexivity.
Qed.

Section BlocksKnown.

Context {ndarray : Type} (astype_float32 : ndarray -> ndarray).
Variable WEIGHTS : gmap string (gmap string ndarray).
Implicit Types (x t : Tensor ndarray).

Lemma main_path_known (stage block : Z) x (c1 c2 c3 k s : Z) t
    (bd : option Z) (h w c : Z) :
  shape x = [bd; Some h; Some w; Some c] ->
  bottleneck_main_path astype_float32 WEIGHTS stage block x (c1, c2, c3) k s = Ok t ->
  shape t = [bd; Some (ceil_div h s); Some (ceil_div w s); Some c3]
  /\ all_present WEIGHTS (main_path_layers stage block) = true
  /\ 0 < ceil_div h s /\ 0 < ceil_div w s.
Proof.
  intros Hx H. unfold bottleneck_main_path in H. do 2 bind_inv H.
  apply (conv_then_norm_known _ _ _ _ _ _ _ _ _ _ _ _ _ _ Hx) in E
    as (Sa & Pa & Hh & Hw).
  apply (conv_then_norm_known _ _ _ _ _ _ _ _ (tf_nn_relu r) _ _ _ _ _ Sa) in E0
    as (Sb & Pb & _ & _).
  apply (conv_then_norm_known _ _ _ _ _ _ _ _ (tf_nn_relu r0) _ _ _ _ _ Sb) in H
    as (Sc & Pc & _ & _).
  rewrite !ceil_div_1 in Sc.
  split; [exact Sc |]. split; [| auto].
  unfold main_path_layers. rewrite !all_present_app. auto.
Qed.

(** A projection block that was built: its shape, the layers the store
    holds, and the positive sizes. *)
Lemma conv_block_known (stage block : Z) x (c1 c2 c3 : Z)
    (kernel_size stride : option Z) t (bd : option Z) (h w c : Z) :
  shape x = [bd; Some h; Some w; Some c] ->
  _conv_block astype_float32 WEIGHTS stage block x (c1, c2, c3) kernel_size stride
    = Ok t ->
  shape t = [bd; Some (ceil_div h (default 2 stride));
             Some (ceil_div w (default 2 stride)); Some c3]
  /\ all_present WEIGHTS (conv_block_layers stage block) = true
  /\ 0 < ceil_div h (default 2 stride) /\ 0 < ceil_div w (default 2 stride).
Proof.
  intros Hx H. rewrite conv_block_unfold in H. do 3 bind_inv H.
  injection H as <-.
  unfold projection_shortcut in E. cbn [snd] in E.
  apply (conv_then_norm_known _ _ _ _ _ _ _ _ _ _ _ _ _ _ Hx) in E
    as (Ss & Ps & Hh & Hw).
  apply (main_path_known _ _ _ _ _ _ _ _ _ _ _ _ _ Hx) in E0 as (Sm & Pm & _ & _).
  apply layers_Add_Ok in E1 as [_ Hm].
  rewrite Sm, Ss, merge_shape_same in Hm. injection Hm as Hm.
  split; [symmetry; exact Hm |]. split; [| auto].
  unfold conv_block_layers. rewrite all_present_app. auto.
Qed.

(** An identity block that was built. *)
Lemma identity_block_known (stage block : Z) x (c1 c2 c3 k : Z) t
    (bd : option Z) (h w c : Z) :
  shape x = [bd; Some h; Some w; Some c] ->
  _identity_block astype_float32 WEIGHTS stage block x (c1, c2, c3) k = Ok t ->
  shape t = [bd; Some h; Some w; Some (if c =? 1 then c3 else c)]
  /\ all_present WEIGHTS (main_path_layers stage block) = true
  /\ 0 < h /\ 0 < w.
Proof.
  intros Hx H. rewrite identity_block_unfold in H. do 2 bind_inv H.
  injection H as <-.
  apply (main_path_known _ _ _ _ _ _ _ _ _ _ _ _ _ Hx) in E as (Sm & Pm & Hh & Hw).
  rewrite !ceil_div_1 in *.
  apply layers_Add_Ok in E0 as [_ Hm]. rewrite Sm, Hx in Hm.
  apply merge_shape_channel in Hm.
  split; [exact Hm |]. auto.
Qed.

Lemma identity_block_same_channels (stage block : Z) x (c1 c2 c3 k : Z) t
    (bd : option Z) (h w : Z) :
  shape x = [bd; Some h; Some w; Some c3] ->
  _identity_block astype_float32 WEIGHTS stage block x (c1, c2, c3) k = Ok t ->
  shape t = [bd; Some h; Some w; Some c3]
  /\ all_present WEIGHTS (main_path_layers stage block) = true
  /\ 0 < h /\ 0 < w.
Proof.
  intros Hx H.
  apply (identity_block_known _ _ _ _ _ _ _ _ _ _ _ _ Hx) in H
    as (S & P & Hh & Hw).
  destruct (c3 =? 1) in S; auto.
Qed.

End BlocksKnown.

(** ** The assembler on inputs of known size *)

Lemma fix_unknown_dimension_1024 (ds : list Z) :
  fix_unknown_dimension ds [-1; 1024]
  = if negb (fold_right Z.mul 1 ds mod 1024 =? 0)
    then Raise (ValueError "total size of new array must be unchanged")
    else Ok [fold_right Z.mul 1 ds / 1024; 1024].
Proof. reflexivity. Qed.

Lemma reshape_rows_known (bd : option Z) (p q : Z) :
  reshape_shape [bd; Some p; Some q; Some 1024] [-1; 1024]
  = Ok [bd; Some (p * q); Some 1024].
Proof.
  unfold reshape_shape, all_known, option_map.
  rewrite fix_unknown_dimension_1024. cbn [fold_right].
  replace (p * (q * (1024 * 1))) with (p * q * 1024) by ring.
  rewrite Z.mod_mul, Z.div_mul by lia.
  reflexivity.
Qed.

Lemma stem_conv_length (n : Z) :
  conv_output_length (n + 3 + 3) 7 valid 2 = (n + 1) / 2.
Proof. unfold conv_output_length. f_equal. lia. Qed.

Lemma pool_7_length (n : Z) : conv_output_length n 7 valid 1 = n - 6.
Proof. unfold conv_output_length. rewrite Z.div_1_r. lia. Qed.

Lemma feature_size_ge_7 (n : Z) : 7 <= feature_size n <-> 193 <= n.
Proof. unfold feature_size, ceil_div. Z.div_mod_to_equations. lia. Qed.

Lemma feature_size_eq_7 (n : Z) : feature_size n = 7 <-> 193 <= n <= 224.
Proof. unfold feature_size, ceil_div. Z.div_mod_to_equations. lia. Qed.

Section AssemblerKnown.

Context {ndarray : Type} (astype_float32 : ndarray -> ndarray).
Variable WEIGHTS : gmap string (gmap string ndarray).
Implicit Types (x t : Tensor ndarray) (m : KerasModel ndarray).

Lemma conv_call_shape_known (name : string) (f k s : Z) (p : Padding)
    (kernel bias : ndarray) x t (bd : option Z) (h w c : Z) :
  shape x = [bd; Some h; Some w; Some c] ->
  call (Conv2D name f k s p kernel bias) x = Ok t ->
  shape t = [bd; Some (conv_output_length h k p s);
             Some (conv_output_length w k p s); Some f]
  /\ 0 < conv_output_length h k p s /\ 0 < conv_output_length w k p s.
Proof.
  intros Hx H. apply (conv_call_known _ _ _ _ _ _ _ _ _ _ _ _ _ Hx) in H
    as (-> & _ & _ & _ & Hh & Hw). auto.
Qed.

Lemma pool_call_shape_known (l : Layer ndarray) (size stride : Z) (p : Padding)
    x t (bd : option Z) (h w c : Z) :
  (l = MaxPooling2D size stride p
   \/ exists name, l = AveragePooling2D size stride p name) ->
  shape x = [bd; Some h; Some w; Some c] ->
  call l x = Ok t ->
  shape t = [bd; Some (conv_output_length h size p stride);
             Some (conv_output_length w size p stride); Some c]
  /\ 0 < conv_output_length h size p stride
  /\ 0 < conv_output_length w size p stride.
Proof.
  intros Hl Hx H. apply (pool_call_known _ _ _ _ _ _ _ _ _ _ Hl Hx) in H
    as (-> & _ & _ & Hh & Hw). auto.
Qed.

Lemma tf_pad_input_shape (h w c : Z) (name mode : string) t :
  tf_pad (layers_Input (h, w, c) name : Tensor ndarray)
         [(0, 0); (3, 3); (3, 3); (0, 0)] mode = Ok t ->
  shape t = [None; Some (h + 3 + 3); Some (w + 3 + 3); Some (c + 0 + 0)].
Proof.
  unfold tf_pad. intros H. bind_inv H. injection H as <-.
  simpl in E. injection E as <-. reflexivity.
Qed.

Lemma all_present_two (a b : string * list string) :
  has_fields WEIGHTS (fst a) (snd a) = true ->
  has_fields WEIGHTS (fst b) (snd b) = true ->
  all_present WEIGHTS [a; b] = true.
Proof.
  destruct a, b. unfold all_present. cbn [forallb fst snd].
  intros -> ->. reflexivity.
Qed.

Lemma all_present_one (a : string * list string) :
  has_fields WEIGHTS (fst a) (snd a) = true ->
  all_present WEIGHTS [a] = true.
Proof.
  destruct a. unfold all_present. cbn [forallb fst snd].
  intros ->. reflexivity.
Qed.

Lemma feature_size_unfold (n : Z) :
  ceil_div (ceil_div (ceil_div (ceil_div
    (conv_output_length (conv_output_length (n + 3 + 3) 7 valid 2) 3 same 2)
    1) 2) 2) 2
  = feature_size n.
Proof.
  unfold feature_size. rewrite ceil_div_1, stem_conv_length. reflexivity.
Qed.

(** One block of a run that succeeded: from the shape of the block input to
    the shape of its output and the layers the store must hold. *)
Ltac known_block_step :=
  match goal with
  | S : shape ?x = [_; Some _; Some _; Some _],
    E : _conv_block _ _ _ _ ?x _ _ _ = Ok _ |- _ =>
      let S' := fresh "S" in
      eapply conv_block_known in E as (S' & ? & _ & _); [| exact S]; clear S
  | S : shape ?x = [_; Some _; Some _; Some _],
    E : _identity_block _ _ _ _ ?x _ _ = Ok _ |- _ =>
      let S' := fresh "S" in
      eapply identity_block_same_channels in E as (S' & ? & _ & _);
      [| exact S]; clear S
  end.

(** Names the one shape fact (and the tensor it is about) left after the
    blocks. *)
Ltac rename_shape S' :=
  match goal with
  | S : shape _ = [_; Some _; Some _; Some 1024] |- _ => rename S into S'
  end.

Lemma make_known (input_shape : option (Z * Z * Z)) (h w c : Z) m :
  default (224, 224, 3) input_shape = (h, w, c) ->
  make_open_nsfw_model_and_load_weights astype_float32 WEIGHTS input_shape = Ok m ->
  all_present WEIGHTS network_layers = true
  /\ 7 <= feature_size h /\ 7 <= feature_size w
  /\ shape (outputs m)
     = [None; Some ((feature_size h - 6) * (feature_size w - 6)); Some 2].
Proof.
  intros Hd H. unfold make_open_nsfw_model_and_load_weights in H.
  rewrite Hd in H. do 26 bind_inv H. injection H as <-.
  apply tf_pad_input_shape in E as S.
  assert (P0 : has_fields WEIGHTS "conv_1" kernel_bias_fields = true)
    by (eapply conv2d_has_fields; eauto).
  assert (P2 : has_fields WEIGHTS "bn_1" batch_norm_fields = true)
    by (eapply batch_norm_has_fields; eauto).
  assert (P23 : has_fields WEIGHTS "fc_nsfw" kernel_bias_fields = true)
    by (eapply fully_connected_has_fields; eauto).
  apply conv2d_Ok in E0 as (kernel & bias & _ & _ & ->).
  apply batch_norm_Ok in E2 as (sc & off & mu & var & _ & _ & _ & _ & ->).
  apply fully_connected_Ok in E23 as (fk & fb & _ & _ & ->).
  apply (conv_call_shape_known _ _ _ _ _ _ _ _ _ _ _ _ _ S) in E1 as (S1 & _ & _).
  apply batch_norm_call_shape in E3 as S3. rewrite S1 in S3.
  eapply (pool_call_shape_known _ 3 2 same (tf_nn_relu r3)) in E4 as (S4 & _ & _);
    [| left; reflexivity | exact S3].
  repeat known_block_step. rename_shape S20.
  cbn [default] in S20. rewrite !feature_size_unfold in S20.
  eapply (pool_call_shape_known _ 7 1 valid) in E21 as (S21 & Hh & Hw);
    [| right; eexists; reflexivity | exact S20].
  rewrite !pool_7_length in S21. rewrite pool_7_length in Hh.
  rewrite pool_7_length in Hw.
  apply call_Ok in E22 as [_ S22]. rewrite S21 in S22.
  cbn [compute_output_shape] in S22. rewrite reshape_rows_known in S22.
  injection S22 as S22.
  apply call_Ok in E24 as [_ S24]. rewrite <- S22 in S24.
  simpl in S24. injection S24 as S24.
  split.
  { unfold network_layers. rewrite !all_present_app.
    repeat split; try assumption;
      [apply all_present_two; assumption | apply all_present_one; assumption]. }
  split; [lia |]. split; [lia |]. simpl. symmetry. exact S24.
Qed.

(** The head of a model that was assembled: the tensors it goes through and
    their shapes. *)
Lemma make_head_known (input_shape : option (Z * Z * Z)) (h w c : Z) m :
  default (224, 224, 3) input_shape = (h, w, c) ->
  make_open_nsfw_model_and_load_weights astype_float32 WEIGHTS input_shape = Ok m ->
  exists features pooled flat logits kernel bias,
    shape features = [None; Some (feature_size h); Some (feature_size w); Some 1024]
    /\ call (AveragePooling2D 7 1 valid "pool") features = Ok pooled
    /\ shape pooled
       = [None; Some (feature_size h - 6); Some (feature_size w - 6); Some 1024]
    /\ call (Reshape [-1; 1024]) pooled = Ok flat
    /\ shape flat
       = [None; Some ((feature_size h - 6) * (feature_size w - 6)); Some 1024]
    /\ _get_weights astype_float32 WEIGHTS "fc_nsfw" "weights" = Ok kernel
    /\ _get_weights astype_float32 WEIGHTS "fc_nsfw" "biases" = Ok bias
    /\ call (Dense "fc_nsfw" 2 kernel bias) flat = Ok logits
    /\ outputs m = tf_nn_softmax logits "predictions"
    /\ 7 <= feature_size h /\ 7 <= feature_size w.
Proof.
  intros Hd H. unfold make_open_nsfw_model_and_load_weights in H.
  rewrite Hd in H. do 26 bind_inv H. injection H as <-.
  apply tf_pad_input_shape in E as S.
  apply conv2d_Ok in E0 as (kernel & bias & _ & _ & ->).
  apply batch_norm_Ok in E2 as (sc & off & mu & var & _ & _ & _ & _ & ->).
  apply fully_connected_Ok in E23 as (fk & fb & Hfk & Hfb & ->).
  apply (conv_call_shape_known _ _ _ _ _ _ _ _ _ _ _ _ _ S) in E1 as (S1 & _ & _).
  apply batch_norm_call_shape in E3 as S3. rewrite S1 in S3.
  eapply (pool_call_shape_known _ 3 2 same (tf_nn_relu r3)) in E4 as (S4 & _ & _);
    [| left; reflexivity | exact S3].
  repeat known_block_step. rename_shape S20.
  cbn [default] in S20. rewrite !feature_size_unfold in S20.
  pose proof E21 as S21.
  eapply (pool_call_shape_known _ 7 1 valid) in S21 as (S21 & Hh & Hw);
    [| right; eexists; reflexivity | exact S20].
  rewrite !pool_7_length in S21. rewrite pool_7_length in Hh.
  rewrite pool_7_length in Hw.
  pose proof E22 as S22.
  apply call_Ok in S22 as [_ S22]. rewrite S21 in S22.
  cbn [compute_output_shape] in S22. rewrite reshape_rows_known in S22.
  injection S22 as S22.
  exists r20, r21, r22, r24, fk, fb.
  repeat split; try assumption; try lia. symmetry. exact S22.
Qed.


End AssemblerKnown.

(** ** Layer names *)

Lemma str_inj (a b : Z) : str a = str b -> a = b.
Proof.
  unfold str. intros H.
  assert (Hn : forall n, Z.to_int n <> Decimal.Pos Decimal.Nil
                         /\ Z.to_int n <> Decimal.Neg Decimal.Nil).
  { intros [| p | p]; simpl; split; try discriminate;
      intros E; injection E as E;
      exact (DecimalPos.Unsigned.to_uint_nonnil p E). }
  apply (f_equal NilZero.int_of_string) in H.
  rewrite !NilZero.isi in H by apply Hn.
  injection H as H. apply (f_equal Z.of_int) in H.
  rewrite !DecimalZ.of_to in H. exact H.
Qed.

Lemma uint_no_underscore (d : Decimal.uint) :
  no_underscore (NilEmpty.string_of_uint d) = true.
Proof. induction d; simpl; auto. Qed.

Lemma str_no_underscore (n : Z) : no_underscore (str n) = true.
Proof.
  unfold str. destruct (Z.to_int n) as [d | d]; simpl.
  - destruct d; try reflexivity; apply (uint_no_underscore (_ d)).
  - destruct d; try reflexivity; apply (uint_no_underscore (_ d)).
Qed.

(** Two texts without underscore, each followed by an underscore: the first
    underscore marks where the first text ends. *)
Lemma split_at_underscore (s s' r r' : string) :
  no_underscore s = true -> no_underscore s' = true ->
  s +:+ String underscore r = s' +:+ String underscore r' ->
  s = s' /\ r = r'.
Proof.
  revert s'. induction s as [| a s IH]; intros [| a' s'] Hs Hs' H.
  - change (String underscore r = String underscore r') in H.
    injection H as ->. auto.
  - change (String underscore r = String a' (s' +:+ String underscore r')) in H.
    injection H as Ha _. subst a'.
    cbn [no_underscore] in Hs'. rewrite Ascii.eqb_refl in Hs'. discriminate.
  - change (String a (s +:+ String underscore r) = String underscore r') in H.
    injection H as Ha _. subst a.
    cbn [no_underscore] in Hs. rewrite Ascii.eqb_refl in Hs. discriminate.
  - change (String a (s +:+ String underscore r)
            = String a' (s' +:+ String underscore r')) in H.
    injection H as -> H. cbn [no_underscore] in Hs, Hs'.
    apply andb_true_iff in Hs as [_ Hs]. apply andb_true_iff in Hs' as [_ Hs'].
    destruct (IH s' Hs Hs' H) as [-> ->]. auto.
Qed.

Lemma string_app_inv_head (s t t' : string) : s +:+ t = s +:+ t' -> t = t'.
Proof.
  induction s as [| a s IH]; intros H.
  - exact H.
  - change (String a (s +:+ t) = String a (s +:+ t')) in H.
    injection H as H. auto.
Qed.

(** X13: the name of a block's layer determines its kind, stage, block and branch:
    no two layers of the residual stages share a store entry. *)
Theorem block_layer_name_inj (kind kind' : string) (stage stage' block block' : Z)
    (branch branch' : string) :
  no_underscore kind = true -> no_underscore kind' = true ->
  block_layer_name kind stage block (String underscore branch)
  = block_layer_name kind' stage' block' (String underscore branch') ->
  kind = kind' /\ stage = stage' /\ block = block' /\ branch = branch'.
Proof.
  intros Hk Hk' H. unfold block_layer_name in H.
  change (kind +:+ String underscore ("stage" +:+ str stage +:+ "_block"
            +:+ str block +:+ String underscore branch)
          = kind' +:+ String underscore ("stage" +:+ str stage' +:+ "_block"
              +:+ str block' +:+ String underscore branch')) in H.
  apply split_at_underscore in H as [-> H]; try assumption.
  apply string_app_inv_head in H.
  change (str stage +:+ String underscore ("block" +:+ str block
            +:+ String underscore branch)
          = str stage' +:+ String underscore ("block" +:+ str block'
              +:+ String underscore branch')) in H.
  apply split_at_underscore in H as [Hst H]; try apply str_no_underscore.
  apply string_app_inv_head in H.
  apply split_at_underscore in H as [Hb ->]; try apply str_no_underscore.
  apply str_inj in Hst, Hb. auto.
Qed.

Lemma block_layer_name_inj_witness :
  "conv" = "conv" /\ 1 = 1 /\ 2 = 2 /\ "branch2a" = "branch2a".
Proof.
  apply (block_layer_name_inj "conv" "conv" 1 1 2 2 "branch2a" "branch2a");
    reflexivity.
Defined.

(** ** Every layer of the graph is bound to the store *)

Section Bound.

Context {ndarray : Type} (astype_float32 : ndarray -> ndarray).
Variable WEIGHTS : gmap string (gmap string ndarray).
Implicit Types (x t : Tensor ndarray).

Local Abbreviation bound := (graph_bound astype_float32 WEIGHTS).

Lemma conv_then_norm_bound (stage block : Z) (branch : string) (f k s : Z) x t :
  bound (node x) ->
  conv_then_norm astype_float32 WEIGHTS stage block branch f k s x = Ok t ->
  bound (node t).
Proof.
  intros Hx H. unfold conv_then_norm in H. do 3 bind_inv H.
  apply conv2d_Ok in E as (kernel & bias & Hk & Hb & ->).
  apply batch_norm_Ok in E1 as (sc & off & mu & var & Hs & Ho & Hm & Hv & ->).
  apply call_Ok in E0 as [N0 _], H as [N _].
  rewrite N, N0. simpl. auto 10.
Qed.

Lemma main_path_bound (stage block : Z) x (c : Z * Z * Z) (k s : Z) t :
  bound (node x) ->
  bottleneck_main_path astype_float32 WEIGHTS stage block x c k s = Ok t ->
  bound (node t).
Proof.
  intros Hx H. destruct c as [[c1 c2] c3].
  unfold bottleneck_main_path in H. do 2 bind_inv H.
  apply (conv_then_norm_bound _ _ _ _ _ _ _ _ Hx) in E.
  apply (conv_then_norm_bound _ _ _ _ _ _ (tf_nn_relu r) _ E) in E0.
  exact (conv_then_norm_bound _ _ _ _ _ _ (tf_nn_relu r0) _ E0 H).
Qed.

Lemma identity_block_bound (stage block : Z) x (c : Z * Z * Z) (k : Z) t :
  bound (node x) ->
  _identity_block astype_float32 WEIGHTS stage block x c k = Ok t ->
  bound (node t).
Proof.
  intros Hx H. rewrite identity_block_unfold in H. do 2 bind_inv H.
  injection H as <-.
  apply (main_path_bound _ _ _ _ _ _ _ Hx) in E.
  apply layers_Add_Ok in E0 as [N _]. simpl. rewrite N. simpl. auto.
Qed.

Lemma conv_block_bound (stage block : Z) x (c : Z * Z * Z) (k s : option Z) t :
  bound (node x) ->
  _conv_block astype_float32 WEIGHTS stage block x c k s = Ok t ->
  bound (node t).
Proof.
  intros Hx H. rewrite conv_block_unfold in H. do 3 bind_inv H.
  injection H as <-.
  apply (conv_then_norm_bound _ _ _ _ _ _ _ _ Hx) in E.
  apply (main_path_bound _ _ _ _ _ _ _ Hx) in E0.
  apply layers_Add_Ok in E1 as [N _]. simpl. rewrite N. simpl. auto.
Qed.

(** One block of a run that succeeded keeps the graph bound. *)
Ltac bound_block_step :=
  match goal with
  | B : graph_bound _ _ (node ?x),
    E : _conv_block _ _ _ _ ?x _ _ _ = Ok _ |- _ =>
      apply (conv_block_bound _ _ _ _ _ _ _ B) in E; clear B
  | B : graph_bound _ _ (node ?x),
    E : _identity_block _ _ _ _ ?x _ _ = Ok _ |- _ =>
      apply (identity_block_bound _ _ _ _ _ _ B) in E; clear B
  end.

(** X14: every convolution, normalization and dense layer in the graph of an
    assembled model carries the arrays the store holds under that layer's
    own name (cast to float32): no layer is left at an initializer of the
    framework, and none takes another layer's arrays. *)
Theorem model_layers_bound (input_shape : option (Z * Z * Z))
    (m : KerasModel ndarray) :
  make_open_nsfw_model_and_load_weights astype_float32 WEIGHTS input_shape = Ok m ->
  graph_bound astype_float32 WEIGHTS (node (outputs m)).
Proof.
  intros H. unfold make_open_nsfw_model_and_load_weights in H.
  do 26 bind_inv H. injection H as <-.
  apply tf_pad_Ok in E as [N _].
  apply conv2d_Ok in E0 as (kernel & bias & Hk & Hb & ->).
  apply batch_norm_Ok in E2 as (sc & off & mu & var & Hs & Ho & Hm & Hv & ->).
  apply fully_connected_Ok in E23 as (fk & fb & Hfk & Hfb & ->).
  apply call_Ok in E1 as [N1 _], E3 as [N3 _], E4 as [N4 _].
  assert (B : bound (node r4)).
  { rewrite N4. simpl. rewrite N3, N1, N. simpl.
    repeat split; try assumption.
    destruct (default _ input_shape) as [[h w] c]. exact I. }
  repeat bound_block_step.
  apply call_Ok in E21 as [N21 _], E22 as [N22 _], E24 as [N24 _].
  simpl. rewrite N24, N22, N21. simpl. auto.
Qed.

End Bound.

(** ** Blocks: output shapes *)

Section BlockProperties.

Context {ndarray : Type} (astype_float32 : ndarray -> ndarray).
Variable WEIGHTS : gmap string (gmap string ndarray).
Implicit Types (x t : Tensor ndarray).

(** X4: a projection block divides both spatial sizes by its stride, rounding
    up, and sets the channel count to its last filter width, whatever the
    input channel count was. *)
Theorem conv_block_output_shape (stage block : Z) x (c1 c2 c3 : Z)
    (kernel_size stride : option Z) t (bd : option Z) (h w c : Z) :
  shape x = [bd; Some h; Some w; Some c] ->
  _conv_block astype_float32 WEIGHTS stage block x (c1, c2, c3) kernel_size stride
    = Ok t ->
  shape t = [bd; Some (ceil_div h (default 2 stride));
             Some (ceil_div w (default 2 stride)); Some c3].
Proof.
  intros Hx H.
  exact (proj1 (conv_block_known astype_float32 WEIGHTS _ _ _ _ _ _ _ _ _ _ _ _ _ Hx H)).
Qed.

(** X6: an identity block keeps the spatial sizes; its output has the input's
    channel count, except on a one-channel input, where it has the last
    filter width.  So on an input with more than one channel the output
    shape is the input shape. *)
Theorem identity_block_output_shape (stage block : Z) x (c1 c2 c3 k : Z) t
    (bd : option Z) (h w c : Z) :
  shape x = [bd; Some h; Some w; Some c] ->
  _identity_block astype_float32 WEIGHTS stage block x (c1, c2, c3) k = Ok t ->
  shape t = [bd; Some h; Some w; Some (if c =? 1 then c3 else c)]
  /\ (c <> 1 -> shape t = shape x).
Proof.
  intros Hx H.
  destruct (identity_block_known astype_float32 WEIGHTS _ _ _ _ _ _ _ _ _ _ _ _ Hx H)
    as (S & _).
  split; [exact S |]. intros Hc. rewrite S, Hx.
  destruct (Z.eqb_spec c 1); [contradiction | reflexivity].
Qed.

End BlockProperties.

(** ** The assembler: what a built model requires, and its output *)

Section AssemblerProperties.

Context {ndarray : Type} (astype_float32 : ndarray -> ndarray).
Variable WEIGHTS : gmap string (gmap string ndarray).
Implicit Types (m : KerasModel ndarray).

(** X8: a model is assembled only from a store that holds every one of the
    network's layers with the fields that layer reads, and only for inputs
    of at least 193 x 193: on a smaller input the 7x7 average pool does not
    fit the last feature map. *)
Theorem assembler_requirements (input_shape : option (Z * Z * Z)) (h w c : Z) m :
  default (224, 224, 3) input_shape = (h, w, c) ->
  make_open_nsfw_model_and_load_weights astype_float32 WEIGHTS input_shape = Ok m ->
  all_present WEIGHTS network_layers = true /\ 193 <= h /\ 193 <= w.
Proof.
  intros Hd H.
  destruct (make_known astype_float32 WEIGHTS _ _ _ _ _ Hd H) as (P & Fh & Fw & _).
  apply feature_size_ge_7 in Fh, Fw. auto.
Qed.

(** X10: the output of an assembled model has one row of 2 entries for every
    position of the 7x7 pooling window on the last feature map, whose side
    is [feature_size] of the input side. *)
Theorem assembler_output_shape (input_shape : option (Z * Z * Z)) (h w c : Z) m :
  default (224, 224, 3) input_shape = (h, w, c) ->
  make_open_nsfw_model_and_load_weights astype_float32 WEIGHTS input_shape = Ok m ->
  shape (outputs m)
  = [None; Some ((feature_size h - 6) * (feature_size w - 6)); Some 2].
Proof.
  intros Hd H.
  apply (make_known astype_float32 WEIGHTS _ _ _ _ _ Hd H).
Qed.

(** X11: the output is a single pair of class probabilities per image exactly
    when neither input side exceeds 224; a larger input yields several
    rows. *)
Theorem assembler_single_row_iff (input_shape : option (Z * Z * Z)) (h w c : Z) m :
  default (224, 224, 3) input_shape = (h, w, c) ->
  make_open_nsfw_model_and_load_weights astype_float32 WEIGHTS input_shape = Ok m ->
  shape (outputs m) = [None; Some 1; Some 2] <-> h <= 224 /\ w <= 224.
Proof.
  intros Hd H.
  destruct (make_known astype_float32 WEIGHTS _ _ _ _ _ Hd H) as (_ & Fh & Fw & ->).
  pose proof (feature_size_eq_7 h) as Eh. pose proof (feature_size_eq_7 w) as Ew.
  pose proof (proj1 (feature_size_ge_7 h) Fh) as Gh.
  pose proof (proj1 (feature_size_ge_7 w) Fw) as Gw.
  split.
  - intros E. injection E as E.
    assert (feature_size h = 7 /\ feature_size w = 7) as [Ah Aw] by nia.
    apply Eh in Ah. apply Ew in Aw. lia.
  - intros [Lh Lw].
    assert (Ah : feature_size h = 7) by (apply Eh; lia).
    assert (Aw : feature_size w = 7) by (apply Ew; lia).
    rewrite Ah, Aw. reflexivity.
Qed.

End AssemblerProperties.

(** ** The further properties on the example stores *)

Lemma factory_reports_first_missing_field_witness :
  _batch_norm (fun a : Z => a) bn_1_partial "bn_1"
  = Raise (ValueError "No field mean in layer bn_1.").
Proof.
  apply (factory_reports_first_missing_field (fun a : Z => a) bn_1_partial "bn_1"
           (list_to_map [("scale", 1); ("offset", 2)])
           ["scale"; "offset"] "mean" ["variance"]).
  - reflexivity.
  - intros g [<- | [<- | []]]; eexists; reflexivity.
  - reflexivity.
  - reflexivity.
Defined.

Lemma conv_block_output_shape_witness :
  exists t,
    _conv_block keep example_archive 1 0 example_block_input (64, 64, 256)
      (Some 3) (Some 2) = Ok t
    /\ shape t = [None; Some (ceil_div 56 2); Some (ceil_div 56 2); Some 256].
Proof.
  pose proof example_conv_block_shape as Hs.
  destruct (_conv_block keep example_archive 1 0 example_block_input
              (64, 64, 256) (Some 3) (Some 2)) as [t | e] eqn:E;
    [| discriminate Hs].
  exists t. split; [reflexivity |].
  exact (conv_block_output_shape keep example_archive 1 0 example_block_input
           64 64 256 (Some 3) (Some 2) t None 56 56 128 eq_refl E).
Defined.

Lemma identity_block_output_shape_witness :
  exists t,
    _identity_block keep example_archive 0 0 example_block_input (32, 32, 128) 3
      = Ok t
    /\ shape t = [None; Some 56; Some 56; Some 128]
    /\ shape t = shape example_block_input.
Proof.
  pose proof example_identity_block_shape as Hs.
  destruct (_identity_block keep example_archive 0 0 example_block_input
              (32, 32, 128) 3) as [t | e] eqn:E; [| discriminate Hs].
  destruct (identity_block_output_shape keep example_archive 0 0
              example_block_input 32 32 128 3 t None 56 56 128 eq_refl E)
    as [S Hx].
  exists t. split; [reflexivity |]. split; [exact S |]. apply Hx. lia.
Defined.

Lemma assembler_requirements_witness :
  exists m,
    make_open_nsfw_model_and_load_weights keep example_archive None = Ok m
    /\ all_present example_archive network_layers = true
    /\ 193 <= 224 /\ 193 <= 224.
Proof.
  pose proof default_model_output_shape as Hs.
  destruct (make_open_nsfw_model_and_load_weights keep example_archive None)
    as [m | e] eqn:E; [| discriminate Hs].
  exists m. split; [reflexivity |].
  exact (assembler_requirements keep example_archive None 224 224 3 m eq_refl E).
Defined.

Lemma assembler_output_shape_witness :
  exists m,
    make_open_nsfw_model_and_load_weights keep example_archive
      (Some (448, 448, 3)) = Ok m
    /\ shape (outputs m)
       = [None; Some ((feature_size 448 - 6) * (feature_size 448 - 6)); Some 2].
Proof.
  pose proof large_model_output_shape as Hs.
  destruct (make_open_nsfw_model_and_load_weights keep example_archive
              (Some (448, 448, 3))) as [m | e] eqn:E; [| discriminate Hs].
  exists m. split; [reflexivity |].
  exact (assembler_output_shape keep example_archive (Some (448, 448, 3))
           448 448 3 m eq_refl E).
Defined.

Lemma assembler_single_row_iff_witness :
  exists m,
    make_open_nsfw_model_and_load_weights keep example_archive None = Ok m
    /\ (shape (outputs m) = [None; Some 1; Some 2] <-> 224 <= 224 /\ 224 <= 224).
Proof.
  pose proof default_model_output_shape as Hs.
  destruct (make_open_nsfw_model_and_load_weights keep example_archive None)
    as [m | e] eqn:E; [| discriminate Hs].
  exists m. split; [reflexivity |].
  exact (assembler_single_row_iff keep example_archive None 224 224 3 m eq_refl E).
Defined.

Lemma model_layers_bound_witness :
  exists m,
    make_open_nsfw_model_and_load_weights keep example_archive None = Ok m
    /\ graph_bound keep example_archive (node (outputs m)).
Proof.
  pose proof default_model_output_shape as Hs.
  destruct (make_open_nsfw_model_and_load_weights keep example_archive None)
    as [m | e] eqn:E; [| discriminate Hs].
  exists m. split; [reflexivity |].
  exact (model_layers_bound keep example_archive None m E).
Defined.

(** [layer_bound] tells a layer that carries the store's arrays from one that
    does not. *)
Lemma layer_bound_example :
  layer_bound (fun a : Z => a) conv_1_only (Conv2D "conv_1" 64 7 2 valid 1 2)
  /\ ~ layer_bound (fun a : Z => a) conv_1_only (Conv2D "conv_1" 64 7 2 valid 2 1).
Proof.
  split.
  - split; reflexivity.
  - intros [H _]. discriminate H.
Qed.

(** ** Entries of the store the network does not name *)

Section OtherEntries.

Context {ndarray : Type} (astype_float32 : ndarray -> ndarray).
Variables W W' : gmap string (gmap string ndarray).
Implicit Types (x : Tensor ndarray).

Lemma agree_on_sub (l l' : list (string * list string)) :
  (forall e, In e l -> In e l') ->
  agree_on astype_float32 W W' l' -> agree_on astype_float32 W W' l.
Proof. intros Hsub H layer fields field Hl Hf. eapply H; eauto. Qed.

Lemma conv2d_agree (name : string) (nf k s : Z) (p : option Padding) :
  agree_on astype_float32 W W' [(name, kernel_bias_fields)] ->
  _conv2d astype_float32 W name nf k s p = _conv2d astype_float32 W' name nf k s p.
Proof.
  intros H. unfold _conv2d.
  rewrite (H name kernel_bias_fields "weights"),
          (H name kernel_bias_fields "biases"); simpl; auto.
Qed.

Lemma fully_connected_agree (name : string) (units : Z) :
  agree_on astype_float32 W W' [(name, kernel_bias_fields)] ->
  _fully_connected astype_float32 W name units
  = _fully_connected astype_float32 W' name units.
Proof.
  intros H. unfold _fully_connected.
  rewrite (H name kernel_bias_fields "weights"),
          (H name kernel_bias_fields "biases"); simpl; auto.
Qed.

Lemma batch_norm_agree (name : string) :
  agree_on astype_float32 W W' [(name, batch_norm_fields)] ->
  _batch_norm astype_float32 W name = _batch_norm astype_float32 W' name.
Proof.
  intros H. unfold _batch_norm.
  rewrite (H name batch_norm_fields "scale"),
          (H name batch_norm_fields "offset"),
          (H name batch_norm_fields "mean"),
          (H name batch_norm_fields "variance"); simpl; auto 10.
Qed.

Lemma conv_then_norm_agree (stage block : Z) (branch : string) (f k s : Z) x :
  agree_on astype_float32 W W' (branch_layers stage block branch) ->
  conv_then_norm astype_float32 W stage block branch f k s x
  = conv_then_norm astype_float32 W' stage block branch f k s x.
Proof.
  intros H. unfold conv_then_norm.
  rewrite (conv2d_agree (block_layer_name "conv" stage block branch)),
          (batch_norm_agree (block_layer_name "bn" stage block branch)).
  - reflexivity.
  - eapply agree_on_sub; [| exact H]. unfold branch_layers. simpl. tauto.
  - eapply agree_on_sub; [| exact H]. unfold branch_layers. simpl. tauto.
Qed.

Lemma main_path_agree (stage block : Z) x (c : Z * Z * Z) (k s : Z) :
  agree_on astype_float32 W W' (main_path_layers stage block) ->
  bottleneck_main_path astype_float32 W stage block x c k s
  = bottleneck_main_path astype_float32 W' stage block x c k s.
Proof.
  intros H. destruct c as [[c1 c2] c3]. unfold bottleneck_main_path.
  assert (Ha : agree_on astype_float32 W W' (branch_layers stage block "_branch2a"))
    by (eapply agree_on_sub; [| exact H]; unfold main_path_layers;
        intros e; rewrite !in_app_iff; tauto).
  assert (Hb : agree_on astype_float32 W W' (branch_layers stage block "_branch2b"))
    by (eapply agree_on_sub; [| exact H]; unfold main_path_layers;
        intros e; rewrite !in_app_iff; tauto).
  assert (Hc : agree_on astype_float32 W W' (branch_layers stage block "_branch2c"))
    by (eapply agree_on_sub; [| exact H]; unfold main_path_layers;
        intros e; rewrite !in_app_iff; tauto).
  rewrite (conv_then_norm_agree _ _ _ _ _ _ _ Ha).
  destruct (conv_then_norm astype_float32 W' stage block "_branch2a" c1 1 s x);
    [cbn [rbind] | reflexivity].
  rewrite (conv_then_norm_agree _ _ _ _ _ _ _ Hb).
  destruct (conv_then_norm astype_float32 W' stage block "_branch2b" c2 k 1 _);
    [cbn [rbind] | reflexivity].
  apply (conv_then_norm_agree _ _ _ _ _ _ _ Hc).
Qed.

Lemma identity_block_agree (stage block : Z) x (c : Z * Z * Z) (k : Z) :
  agree_on astype_float32 W W' (main_path_layers stage block) ->
  _identity_block astype_float32 W stage block x c k
  = _identity_block astype_float32 W' stage block x c k.
Proof.
  intros H. rewrite !identity_block_unfold, (main_path_agree _ _ _ _ _ _ H).
  reflexivity.
Qed.

Lemma conv_block_agree (stage block : Z) x (c : Z * Z * Z) (k s : option Z) :
  agree_on astype_float32 W W' (conv_block_layers stage block) ->
  _conv_block astype_float32 W stage block x c k s
  = _conv_block astype_float32 W' stage block x c k s.
Proof.
  intros H. rewrite !conv_block_unfold. unfold projection_shortcut.
  assert (Hs : agree_on astype_float32 W W'
                 (branch_layers stage block "_proj_shortcut"))
    by (eapply agree_on_sub; [| exact H]; unfold conv_block_layers;
        intros e; rewrite !in_app_iff; tauto).
  assert (Hm : agree_on astype_float32 W W' (main_path_layers stage block))
    by (eapply agree_on_sub; [| exact H]; unfold conv_block_layers;
        intros e; rewrite !in_app_iff; tauto).
  rewrite (conv_then_norm_agree _ _ _ _ _ _ _ Hs).
  destruct (conv_then_norm astype_float32 W' stage block "_proj_shortcut" _ _ _ x);
    [cbn [rbind] | reflexivity].
  rewrite (main_path_agree _ _ _ _ _ _ Hm). reflexivity.
Qed.

End OtherEntries.

(** A list of layers that is part of the network's. *)
Ltac network_sub_layers :=
  intros ?e; unfold network_layers; rewrite !in_app_iff; cbn [In]; tauto.

(** One step of the assembler on two stores that agree on the network's
    layers: the step reads the same arrays from both, hence raises in both
    or returns the same value. *)
Ltac agree_step H :=
  lazymatch goal with
  | |- rbind (_conv_block ?a ?W1 ?st ?b ?x ?c ?k ?s) _
       = rbind (_conv_block _ ?W2 _ _ _ _ _ _) _ =>
      rewrite (conv_block_agree a W1 W2 st b x c k s)
        by (eapply agree_on_sub; [| exact H]; network_sub_layers)
  | |- rbind (_identity_block ?a ?W1 ?st ?b ?x ?c ?k) _
       = rbind (_identity_block _ ?W2 _ _ _ _ _) _ =>
      rewrite (identity_block_agree a W1 W2 st b x c k)
        by (eapply agree_on_sub; [| exact H]; network_sub_layers)
  | |- rbind (_conv2d ?a ?W1 ?n ?f ?k ?s ?p) _ = rbind (_conv2d _ ?W2 _ _ _ _ _) _ =>
      rewrite (conv2d_agree a W1 W2 n f k s p)
        by (eapply agree_on_sub; [| exact H]; network_sub_layers)
  | |- rbind (_batch_norm ?a ?W1 ?n) _ = rbind (_batch_norm _ ?W2 _) _ =>
      rewrite (batch_norm_agree a W1 W2 n)
        by (eapply agree_on_sub; [| exact H]; network_sub_layers)
  | |- rbind (_fully_connected ?a ?W1 ?n ?u) _
       = rbind (_fully_connected _ ?W2 _ _) _ =>
      rewrite (fully_connected_agree a W1 W2 n u)
        by (eapply agree_on_sub; [| exact H]; network_sub_layers)
  | |- _ => idtac
  end;
  match goal with
  | |- rbind ?m _ = rbind ?m _ => destruct m; [cbn [rbind] | reflexivity]
  end.

(** X15: the assembler reads the store only through the entries of the network's
    own layers: two stores that agree on these give the same result, model
    or error, whatever else they hold. *)
Theorem assembler_ignores_other_entries {ndarray : Type}
    (astype_float32 : ndarray -> ndarray)
    (W W' : gmap string (gmap string ndarray))
    (input_shape : option (Z * Z * Z)) :
  agree_on astype_float32 W W' network_layers ->
  make_open_nsfw_model_and_load_weights astype_float32 W input_shape
  = make_open_nsfw_model_and_load_weights astype_float32 W' input_shape.
Proof.
  intros H. unfold make_open_nsfw_model_and_load_weights.
  repeat agree_step H. reflexivity.
Qed.

Lemma network_layers_not_stage9 :
  forallb (fun e => negb (String.eqb (fst e) "conv_stage9_block0_branch2a"))
          network_layers = true.
Proof. vm_compute. reflexivity. Qed.

Lemma assembler_ignores_other_entries_witness :
  make_open_nsfw_model_and_load_weights keep example_archive None
  = make_open_nsfw_model_and_load_weights keep example_archive_extra None.
Proof.
  apply (assembler_ignores_other_entries keep example_archive example_archive_extra).
  intros layer fields field Hl Hf.
  pose proof (proj1 (forallb_forall _ _) network_layers_not_stage9 _ Hl) as Hne.
  cbn [fst] in Hne. apply negb_true_iff, String.eqb_neq in Hne.
  unfold _get_weights, example_archive_extra.
  rewrite lookup_insert_ne by congruence. reflexivity.
Defined.

(** ** The identity shortcut *)

Section IdentityShortcut.

Context {ndarray : Type} (astype_float32 : ndarray -> ndarray).
Variable WEIGHTS : gmap string (gmap string ndarray).
Implicit Types (x t : Tensor ndarray).

(** C8 (as amended): the identity block has no shape check of its own.  What
    building its main path raises, the block raises.  Once the main path is
    built, the only check left is that of the framework's Add layer on the
    channel counts: with [c3] the last filter width and [c] the input channel
    count, the block raises the Add layer's ValueError, while the graph is
    built, when [c3] differs from [c] and neither is 1; otherwise the block
    is built, the Add layer broadcasting a count of 1. *)
Theorem identity_block_channel_mismatch (stage block : Z) x (c1 c2 c3 k : Z)
    (bd : option Z) (h w c : Z) :
  shape x = [bd; Some h; Some w; Some c] ->
  match bottleneck_main_path astype_float32 WEIGHTS stage block x (c1, c2, c3) k 1
  with
  | Raise e =>
      _identity_block astype_float32 WEIGHTS stage block x (c1, c2, c3) k = Raise e
  | Ok main =>
      _identity_block astype_float32 WEIGHTS stage block x (c1, c2, c3) k
      = if channels_fit c3 c
        then Ok {| shape := [bd; Some h; Some w; Some (if c =? 1 then c3 else c)];
                   node := Relu (Add (node main) (node x)) |}
        else Raise (ValueError "Inputs have incompatible shapes.")
  end.
Proof.
  intros Hx. rewrite identity_block_unfold.
  destruct (bottleneck_main_path _ _ _ _ _ _ _ _) as [main | e] eqn:E;
    [| reflexivity].
  cbn [rbind].
  apply (main_path_known _ _ _ _ _ _ _ _ _ _ _ _ _ _ _ Hx) in E as (Sm & _).
  rewrite !ceil_div_1 in Sm.
  unfold layers_Add. rewrite Sm, Hx. cbn [merge_shape].
  rewrite !merge_dim_same. cbn [rbind].
  unfold merge_dim, channels_fit.
  destruct (Z.eqb_spec c3 1) as [-> | H3]; cbn [rbind].
  - rewrite orb_true_r. cbn [orb].
    destruct (Z.eqb_spec c 1) as [-> |]; reflexivity.
  - destruct (Z.eqb_spec c 1) as [-> | Hc]; cbn [rbind].
    + rewrite orb_true_r. reflexivity.
    + destruct (Z.eqb_spec c3 c) as [-> | Hne]; reflexivity.
Qed.

End IdentityShortcut.

Lemma example_main_path_64 :
  built_shape
    (bottleneck_main_path keep example_archive 0 1 example_block_input
       (32, 32, 64) 3 1)
  = Some [None; Some 56; Some 56; Some 64].
Proof. vm_compute. reflexivity. Qed.

Lemma example_main_path_1 :
  built_shape
    (bottleneck_main_path keep example_archive 0 1 example_block_input
       (32, 32, 1) 3 1)
  = Some [None; Some 56; Some 56; Some 1].
Proof. vm_compute. reflexivity. Qed.

Lemma identity_block_channel_mismatch_witness :
  _identity_block keep example_archive 0 1 example_block_input (32, 32, 64) 3
  = Raise (ValueError "Inputs have incompatible shapes.")
  /\ exists main,
       bottleneck_main_path keep example_archive 0 1 example_block_input
         (32, 32, 1) 3 1 = Ok main
       /\ _identity_block keep example_archive 0 1 example_block_input (32, 32, 1) 3
          = Ok {| shape := [None; Some 56; Some 56; Some 128];
                  node := Relu (Add (node main) (node example_block_input)) |}.
Proof.
  split.
  - pose proof (identity_block_channel_mismatch keep example_archive 0 1
                  example_block_input 32 32 64 3 None 56 56 128 eq_refl) as H.
    pose proof example_main_path_64 as Hm.
    destruct (bottleneck_main_path keep example_archive 0 1 example_block_input
                (32, 32, 64) 3 1) as [main | e]; [exact H | discriminate Hm].
  - pose proof (identity_block_channel_mismatch keep example_archive 0 1
                  example_block_input 32 32 1 3 None 56 56 128 eq_refl) as H.
    pose proof example_main_path_1 as Hm.
    destruct (bottleneck_main_path keep example_archive 0 1 example_block_input
                (32, 32, 1) 3 1) as [main | e]; [| discriminate Hm].
    exists main. split; [reflexivity | exact H].
Defined.

(** ** The classification head *)

Section Head.

Context {ndarray : Type} (astype_float32 : ndarray -> ndarray).
Variable WEIGHTS : gmap string (gmap string ndarray).
Implicit Types (m : KerasModel ndarray).

(** C7 (as amended): the head applies, in order, the 7x7 average pool with
    stride 1 and no padding, the reshape with target (-1, 1024), the dense
    layer [fc_nsfw] with 2 units initialized from the store, and the softmax
    that is the model's output.  The reshape gives one row of 1024 features
    per position of the pooling window on the last feature map, and the
    output one pair of entries per row; the pooled features become a single
    1024-wide row exactly when neither input side exceeds 224. *)
Theorem head_structure (input_shape : option (Z * Z * Z)) (h w c : Z) m :
  default (224, 224, 3) input_shape = (h, w, c) ->
  make_open_nsfw_model_and_load_weights astype_float32 WEIGHTS input_shape = Ok m ->
  let rows := (feature_size h - 6) * (feature_size w - 6) in
  exists (features pooled flat logits : Tensor ndarray) (kernel bias : ndarray),
    call (AveragePooling2D 7 1 valid "pool") features = Ok pooled
    /\ call (Reshape [-1; 1024]) pooled = Ok flat
    /\ _get_weights astype_float32 WEIGHTS "fc_nsfw" "weights" = Ok kernel
    /\ _get_weights astype_float32 WEIGHTS "fc_nsfw" "biases" = Ok bias
    /\ call (Dense "fc_nsfw" 2 kernel bias) flat = Ok logits
    /\ outputs m = tf_nn_softmax logits "predictions"
    /\ node (outputs m)
       = Softmax
           (Call (Dense "fc_nsfw" 2 kernel bias)
              (Call (Reshape [-1; 1024])
                 (Call (AveragePooling2D 7 1 valid "pool") (node features))))
           "predictions"
    /\ shape features
       = [None; Some (feature_size h); Some (feature_size w); Some 1024]
    /\ shape pooled
       = [None; Some (feature_size h - 6); Some (feature_size w - 6); Some 1024]
    /\ shape flat = [None; Some rows; Some 1024]
    /\ shape (outputs m) = [None; Some rows; Some 2]
    /\ (shape flat = [None; Some 1; Some 1024] <-> h <= 224 /\ w <= 224).
Proof.
  intros Hd H rows.
  destruct (make_head_known astype_float32 WEIGHTS _ _ _ _ _ Hd H)
    as (features & pooled & flat & logits & kernel & bias
        & Sf & Ep & Sp & Er & Sr & Hk & Hb & El & -> & Fh & Fw).
  exists features, pooled, flat, logits, kernel, bias.
  split; [exact Ep |]. split; [exact Er |].
  split; [exact Hk |]. split; [exact Hb |].
  split; [exact El |]. split; [reflexivity |].
  apply call_Ok in Ep as [Np _], Er as [Nr _], El as [Nl Sl].
  rewrite Sr in Sl. simpl in Sl. injection Sl as Sl.
  split; [simpl; rewrite Nl, Nr, Np; reflexivity |].
  split; [exact Sf |]. split; [exact Sp |]. split; [exact Sr |].
  split; [simpl; symmetry; exact Sl |].
  rewrite Sr.
  pose proof (feature_size_eq_7 h) as Eh. pose proof (feature_size_ge_7 h) as Gh.
  pose proof (feature_size_eq_7 w) as Ew. pose proof (feature_size_ge_7 w) as Gw.
  split.
  - intros E. injection E as E. unfold rows in E.
    assert (feature_size h = 7 /\ feature_size w = 7) by nia. lia.
  - intros [Lh Lw].
    assert (Ah : feature_size h = 7) by lia.
    assert (Aw : feature_size w = 7) by lia.
    unfold rows. rewrite Ah, Aw. reflexivity.
Qed.

End Head.

(** C7, counterexample to the claim as stated: for the input shape
    (448, 448, 3) the reshape in the head yields 64 rows of 1024 features,
    not one flat 1024-wide vector. *)
Lemma head_reshape_rows_at_448 :
  exists m pooled flat logits kernel bias,
    make_open_nsfw_model_and_load_weights keep example_archive
      (Some (448, 448, 3)) = Ok m
    /\ call (Reshape [-1; 1024]) pooled = Ok flat
    /\ call (Dense "fc_nsfw" 2 kernel bias) flat = Ok logits
    /\ outputs m = tf_nn_softmax logits "predictions"
    /\ shape flat = [None; Some 64; Some 1024].
Proof.
  pose proof large_model_output_shape as Hs.
  destruct (make_open_nsfw_model_and_load_weights keep example_archive
              (Some (448, 448, 3))) as [m | e] eqn:E; [| discriminate Hs].
  destruct (make_head_known keep example_archive (Some (448, 448, 3))
              448 448 3 m eq_refl E)
    as (features & pooled & flat & logits & kernel & bias
        & _ & _ & _ & Er & Sr & _ & _ & El & Ho & _).
  exists m, pooled, flat, logits, kernel, bias.
  repeat split; try assumption.
Qed.

Lemma head_structure_witness :
  exists m (features pooled flat logits : Tensor unit) (kernel bias : unit),
    make_open_nsfw_model_and_load_weights keep example_archive None = Ok m
    /\ call (AveragePooling2D 7 1 valid "pool") features = Ok pooled
    /\ call (Reshape [-1; 1024]) pooled = Ok flat
    /\ call (Dense "fc_nsfw" 2 kernel bias) flat = Ok logits
    /\ outputs m = tf_nn_softmax logits "predictions"
    /\ shape features = [None; Some 7; Some 7; Some 1024]
    /\ shape pooled = [None; Some 1; Some 1; Some 1024]
    /\ shape flat = [None; Some 1; Some 1024]
    /\ shape (outputs m) = [None; Some 1; Some 2].
Proof.
  pose proof default_model_output_shape as Hs.
  destruct (make_open_nsfw_model_and_load_weights keep example_archive None)
    as [m | e] eqn:E; [| discriminate Hs].
  destruct (head_structure keep example_archive None 224 224 3 m eq_refl E)
    as (features & pooled & flat & logits & kernel & bias
        & Ep & Er & _ & _ & El & Ho & _ & Sf & Sp & Sr & So & _).
  exists m, features, pooled, flat, logits, kernel, bias.
  repeat split; try reflexivity; assumption.
Defined.

(** ** Missing store entries *)

Section MissingEntries.

Context {ndarray : Type} (astype_float32 : ndarray -> ndarray).
Variable WEIGHTS : gmap string (gmap string ndarray).
Implicit Types (x t : Tensor ndarray).

Lemma conv2d_Raise (name : string) (nf k s : Z) (p : option Padding) (e : exn) :
  _conv2d astype_float32 WEIGHTS name nf k s p = Raise e ->
  mentions (message e) name = true.
Proof.
  unfold _conv2d.
  destruct (_get_weights _ _ name "weights") eqn:E1; cbn [rbind];
    [destruct (_get_weights _ _ name "biases") eqn:E2; cbn [rbind];
       [discriminate |] |];
    intros H; injection H as <-; eapply get_weights_Raise; eassumption.
Qed.

Lemma fully_connected_Raise (name : string) (units : Z) (e : exn) :
  _fully_connected astype_float32 WEIGHTS name units = Raise e ->
  mentions (message e) name = true.
Proof.
  unfold _fully_connected.
  destruct (_get_weights _ _ name "weights") eqn:E1; cbn [rbind];
    [destruct (_get_weights _ _ name "biases") eqn:E2; cbn [rbind];
       [discriminate |] |];
    intros H; injection H as <-; eapply get_weights_Raise; eassumption.
Qed.

Lemma batch_norm_Raise (name : string) (e : exn) :
  _batch_norm astype_float32 WEIGHTS name = Raise e ->
  mentions (message e) name = true.
Proof.
  unfold _batch_norm.
  destruct (_get_weights _ _ name "scale") eqn:E1; cbn [rbind];
    [destruct (_get_weights _ _ name "offset") eqn:E2; cbn [rbind];
       [destruct (_get_weights _ _ name "mean") eqn:E3; cbn [rbind];
          [destruct (_get_weights _ _ name "variance") eqn:E4; cbn [rbind];
             [discriminate |] |] |] |];
    intros H; injection H as <-; eapply get_weights_Raise; eassumption.
Qed.

(** X2: when the store lacks the layer, or one of the fields the constructor
    reads under it, each of the three layer constructors raises, whatever
    its other arguments are, and the message of the error names the layer:
    the lookups come before anything else the constructor does. *)
Theorem factory_error_names_layer (name : string) (nf k s units : Z)
    (p : option Padding) (fields : list string) (r : result (Layer ndarray)) :
  In (fields, r)
     [(kernel_bias_fields, _conv2d astype_float32 WEIGHTS name nf k s p);
      (kernel_bias_fields, _fully_connected astype_float32 WEIGHTS name units);
      (batch_norm_fields, _batch_norm astype_float32 WEIGHTS name)] ->
  has_fields WEIGHTS name fields = false ->
  exists e, r = Raise e /\ mentions (message e) name = true.
Proof.
  intros [H | [H | [H | []]]]; injection H as <- <-; intros Hf.
  - destruct (_conv2d _ _ name nf k s p) as [l | e] eqn:E.
    + apply conv2d_has_fields in E. congruence.
    + exists e. split; [reflexivity |]. eapply conv2d_Raise; eassumption.
  - destruct (_fully_connected _ _ name units) as [l | e] eqn:E.
    + apply fully_connected_has_fields in E. congruence.
    + exists e. split; [reflexivity |]. eapply fully_connected_Raise; eassumption.
  - destruct (_batch_norm _ _ name) as [l | e] eqn:E.
    + apply batch_norm_has_fields in E. congruence.
    + exists e. split; [reflexivity |]. eapply batch_norm_Raise; eassumption.
Qed.

Lemma conv_then_norm_present (stage block : Z) (branch : string) (f k s : Z) x t :
  conv_then_norm astype_float32 WEIGHTS stage block branch f k s x = Ok t ->
  all_present WEIGHTS (branch_layers stage block branch) = true.
Proof.
  unfold conv_then_norm. intros H. do 3 bind_inv H.
  apply branch_layers_present. split.
  - eapply conv2d_has_fields; eauto.
  - eapply batch_norm_has_fields; eauto.
Qed.

Lemma main_path_present (stage block : Z) x (c : Z * Z * Z) (k s : Z) t :
  bottleneck_main_path astype_float32 WEIGHTS stage block x c k s = Ok t ->
  all_present WEIGHTS (main_path_layers stage block) = true.
Proof.
  destruct c as [[c1 c2] c3]. unfold bottleneck_main_path. intros H.
  do 2 bind_inv H.
  apply conv_then_norm_present in E, E0, H.
  unfold main_path_layers. rewrite !all_present_app. auto.
Qed.

(** X7: a block is built only from a store that holds all its layers with
    their fields, whatever the shape of its input and its other arguments:
    the six layers of branches 2a, 2b and 2c for an identity block, these and
    the two layers of the shortcut for a projection block. *)
Theorem block_layers_required (stage block : Z) x (c : Z * Z * Z)
    (kernel_size stride : option Z) (k : Z) t
    (layers : list (string * list string)) :
  In (Ok t, layers)
     [(_conv_block astype_float32 WEIGHTS stage block x c kernel_size stride,
       conv_block_layers stage block);
      (_identity_block astype_float32 WEIGHTS stage block x c k,
       main_path_layers stage block)] ->
  all_present WEIGHTS layers = true.
Proof.
  intros [H | [H | []]]; injection H as H <-.
  - rewrite conv_block_unfold in H. do 3 bind_inv H.
    unfold projection_shortcut in E.
    apply conv_then_norm_present in E. apply main_path_present in E0.
    unfold conv_block_layers. rewrite all_present_app. auto.
  - rewrite identity_block_unfold in H. do 2 bind_inv H.
    eapply main_path_present; eassumption.
Qed.

(** X5: the outcome of the projection block for an input of known height,
    width and channel count, in terms of its two branches.  The shortcut is
    built first and its error, if any, is the block's; then the main path,
    likewise; when both are built the block is built: the sum never fails,
    both branches having the same shape, and the result has the spatial
    size of the input divided by the stride, rounded up, and as many
    channels as the third filter count. *)
Theorem conv_block_outcome (stage block : Z) x (c1 c2 c3 : Z)
    (kernel_size stride : option Z) (bd : option Z) (h w c : Z) :
  shape x = [bd; Some h; Some w; Some c] ->
  match projection_shortcut astype_float32 WEIGHTS stage block x (c1, c2, c3)
          (default 2 stride),
        bottleneck_main_path astype_float32 WEIGHTS stage block x (c1, c2, c3)
          (default 3 kernel_size) (default 2 stride)
  with
  | Raise e, _ | Ok _, Raise e =>
      _conv_block astype_float32 WEIGHTS stage block x (c1, c2, c3)
        kernel_size stride = Raise e
  | Ok shortcut, Ok main =>
      _conv_block astype_float32 WEIGHTS stage block x (c1, c2, c3)
        kernel_size stride
      = Ok {| shape := [bd; Some (ceil_div h (default 2 stride));
                        Some (ceil_div w (default 2 stride)); Some c3];
              node := Relu (Add (node main) (node shortcut)) |}
  end.
Proof.
  intros Hx. rewrite conv_block_unfold.
  destruct (projection_shortcut _ _ _ _ _ _ _) as [sc | e] eqn:Es;
    [| destruct (bottleneck_main_path _ _ _ _ _ _ _ _); reflexivity].
  cbn [rbind].
  destruct (bottleneck_main_path _ _ _ _ _ _ _ _) as [main | e] eqn:Em;
    [| reflexivity].
  cbn [rbind].
  unfold projection_shortcut in Es. cbn [snd] in Es.
  apply (conv_then_norm_known _ _ _ _ _ _ _ _ _ _ _ _ _ _ Hx) in Es as (Ss & _).
  apply (main_path_known _ _ _ _ _ _ _ _ _ _ _ _ _ _ _ Hx) in Em as (Sm & _).
  unfold layers_Add. rewrite Sm, Ss, merge_shape_same. reflexivity.
Qed.

(** X12: [main] builds the model with the default input shape and discards
    it: it returns nothing when the model is built, and raises the builder's
    error otherwise; it returns only if the store holds every layer of the
    network with its fields. *)
Theorem main_outcome :
  main astype_float32 WEIGHTS
  = match make_open_nsfw_model_and_load_weights astype_float32 WEIGHTS None with
    | Ok _ => Ok tt
    | Raise e => Raise e
    end
  /\ (all_present WEIGHTS network_layers = false ->
      exists e, main astype_float32 WEIGHTS = Raise e).
Proof.
  unfold main.
  destruct (make_open_nsfw_model_and_load_weights _ _ None) as [m | e] eqn:E;
    cbn [rbind]; (split; [reflexivity |]); intros Hf.
  - apply (make_known _ _ None 224 224 3 m eq_refl) in E as (Hp & _).
    congruence.
  - exists e. reflexivity.
Qed.

End MissingEntries.

(** ** The properties of missing entries on the example stores *)

Lemma factory_error_names_layer_witness :
  exists e,
    _batch_norm (fun a : Z => a) conv_1_only "conv_1" = Raise e
    /\ mentions (message e) "conv_1" = true.
Proof.
  apply (factory_error_names_layer (fun a : Z => a) conv_1_only "conv_1"
           64 7 2 2 (Some valid) batch_norm_fields).
  - right. right. left. reflexivity.
  - vm_compute. reflexivity.
Defined.

Lemma block_layers_required_witness :
  all_present example_archive (conv_block_layers 1 0) = true.
Proof.
  pose proof example_conv_block_shape as Hs.
  destruct (_conv_block keep example_archive 1 0 example_block_input
              (64, 64, 256) (Some 3) (Some 2)) as [t | e] eqn:E;
    [| discriminate Hs].
  apply (block_layers_required keep example_archive 1 0 example_block_input
           (64, 64, 256) (Some 3) (Some 2) 3 t).
  left. rewrite E. reflexivity.
Defined.

Lemma conv_block_outcome_witness :
  built_shape
    (_conv_block keep example_archive 1 0 example_block_input (64, 64, 256)
       (Some 3) (Some 2))
  = Some [None; Some 28; Some 28; Some 256]
  /\ _conv_block keep (delete "bn_stage1_block0_branch2b" example_archive) 1 0
       example_block_input (64, 64, 256) (Some 3) (Some 2)
     = Raise (ValueError "No weights found for layer bn_stage1_block0_branch2b.").
Proof.
  split.
  - pose proof (conv_block_outcome keep example_archive 1 0 example_block_input
                  64 64 256 (Some 3) (Some 2) None 56 56 128 eq_refl) as H.
    destruct (projection_shortcut _ _ _ _ _ _ _) as [sc | e] eqn:Es;
      [| vm_compute in Es; discriminate Es].
    destruct (bottleneck_main_path _ _ _ _ _ _ _ _) as [mp | e] eqn:Em;
      [| vm_compute in Em; discriminate Em].
    rewrite H. reflexivity.
  - pose proof (conv_block_outcome keep
                  (delete "bn_stage1_block0_branch2b" example_archive) 1 0
                  example_block_input
                  64 64 256 (Some 3) (Some 2) None 56 56 128 eq_refl) as H.
    destruct (projection_shortcut _ _ _ _ _ _ _) as [sc | e] eqn:Es;
      [| vm_compute in Es; discriminate Es].
    destruct (bottleneck_main_path _ _ _ _ _ _ _ _) as [mp | e] eqn:Em;
      [vm_compute in Em; discriminate Em |].
    rewrite H. vm_compute in Em. injection Em as <-. reflexivity.
Defined.

Lemma main_outcome_witness :
  exists e, main keep (delete "fc_nsfw" example_archive) = Raise e.
Proof.
  apply (proj2 (main_outcome keep (delete "fc_nsfw" example_archive))).
  vm_compute. reflexivity.
Defined.
